(** * The AST layer of libsass (ast.hpp): sequences with a post-append hook,
      blocks, parameter and argument lists, selectors.

    The classes of ast.hpp are embedded as records and inductive types, their
    member functions as functions on those.  A pointer [T*] is an [option]
    (the null pointer is [None]); the elements stored in a [Vectorized<T*>]
    are taken to be non-null, since every hook dereferences them at once. *)

From Stdlib Require Import List Bool String NArith Arith Lia Permutation.
Import ListNotations.
Local Open Scope string_scope.
Local Open Scope list_scope.

Set Implicit Arguments.
Set Warnings "-register-all".

(* ------------------------------------------------------------------------- *)
(** ** Outcomes of a call *)

(** ast.hpp contains no [throw]; the four error names are the ones the
    specification uses, declared so that statements about raised errors can be
    written down and compared with what the code returns. *)
Inductive exn : Type :=
| IndexOutOfRange
| ParameterOrderingViolation
| ArgumentOrderingViolation
| InvalidParameterDefault.

(** A call returns a value, leaves by an exception, or has no defined
    behaviour (an unchecked [std::vector] index past the end, reading a member
    that was never given a value). *)
Inductive outcome (A : Type) : Type :=
| Returns (a : A)
| Raises (e : exn)
| Undefined.

Arguments Returns {A} a.
Arguments Raises {A} e.
Arguments Undefined {A}.

Definition bind {A B : Type} (c : outcome A) (k : A -> outcome B) : outcome B :=
  match c with
  | Returns a => k a
  | Raises e => Raises e
  | Undefined => Undefined
  end.

Declare Scope outcome_scope.
Delimit Scope outcome_scope with outcome.
Notation "x <- c ;; k" := (bind c (fun x => k))
  (at level 61, c at next level, right associativity) : outcome_scope.
Local Open Scope outcome_scope.

(** Statements of a member function body, acting on the members [S] of the
    object.  [skip] is the empty statement [;] (and the empty block [{ }]). *)
Definition action (S : Type) : Type := S -> outcome S.

Definition skip {S : Type} : action S := fun s => Returns s.

Definition seq {S : Type} (a b : action S) : action S :=
  fun s => bind (a s) b.

Definition ite {S : Type} (c : S -> bool) (a b : action S) : action S :=
  fun s => if c s then a s else b s.

(** [if (c) a] without an [else]. *)
Definition when {S : Type} (c : S -> bool) (a : action S) : action S :=
  ite c a skip.

Definition assign {S : Type} (f : S -> S) : action S := fun s => Returns (f s).

Notation "a ;;; b" := (seq a b) (at level 62, right associativity) : outcome_scope.

(** The call returned [true]. *)
Definition returns_true (c : outcome bool) : bool :=
  match c with
  | Returns b => b
  | Raises _ | Undefined => false
  end.

(** [a || b] and [p && f(p)] of C++, with their short circuits. *)
Definition or_else (a b : outcome bool) : outcome bool :=
  x <- a ;; if x then Returns true else b.

Definition and_then {A : Type} (p : option A) (f : A -> outcome bool) : outcome bool :=
  match p with
  | None => Returns false
  | Some x => f x
  end.

(* ------------------------------------------------------------------------- *)
(** ** Vectorized<T> *)

Module Vectorized.

(** [elements_] is the vector; [members] are the data members of the class
    that mixes [Vectorized<T>] in, which is all its hook can assign to. *)
Record t (T D : Type) : Type := mk {
  elements_ : list T;
  members : D
}.

(** The virtual [adjust_after_pushing]: it runs on the object as it is
    after [push_back].  A class that overrides it is an instance. *)
Class Hook (T D : Type) : Type :=
  adjust_after_pushing : T -> t T D -> outcome D.

(** [virtual void adjust_after_pushing(T element) { }] *)
Definition default_hook {T D : Type} : Hook T D :=
  fun _ this => Returns (members this).

Section Operations.
Context {T D : Type} {H : Hook T D}.

(** [Vectorized(size_t s = 0)]: [s] is only a capacity to reserve. *)
Definition new (s : N) (d : D) : t T D := mk [] d.

Definition length (this : t T D) : nat := List.length (elements_ this).

Definition empty (this : t T D) : bool :=
  match elements_ this with [] => true | _ :: _ => false end.

(** [operator[]]: [elements_[i]], which [std::vector] does not check. *)
Definition index (this : t T D) (i : nat) : outcome T :=
  match nth_error (elements_ this) i with
  | Some e => Returns e
  | None => Undefined
  end.

(** [operator<<] *)
Definition push (this : t T D) (element : T) : outcome (t T D) :=
  let pushed := mk (elements_ this ++ [element]) (members this) in
  d <- adjust_after_pushing element pushed ;;
  Returns (mk (elements_ pushed) d).

(** The argument [v] of [operator+=] is a pointer: it designates another
    object, or the object [*this] itself. *)
Inductive operand : Type :=
| Other (v : t T D)
| Self.

Definition deref (v : operand) (this : t T D) : t T D :=
  match v with
  | Other o => o
  | Self => this
  end.

(** The loop of [operator+=] with [n] iterations left:
    each iteration pushes onto [*this] the element found at index [i] of
    what [v] points to. *)
Fixpoint plus_eq_loop (n i : nat) (v : operand) (this : t T D) : outcome (t T D) :=
  match n with
  | O => Returns this
  | S n' =>
      e <- index (deref v this) i ;;
      this' <- push this e ;;
      plus_eq_loop n' (S i) v this'
  end.

(** [operator+=]: [L = v->length()] is read once, before the loop. *)
Definition plus_eq (this : t T D) (v : operand) : outcome (t T D) :=
  let L := length (deref v this) in
  plus_eq_loop L 0 v this.

(** Appending the elements of a list one by one with [operator<<]. *)
Definition push_all (this : t T D) (es : list T) : outcome (t T D) :=
  fold_left (fun acc e => this' <- acc ;; push this' e) es (Returns this).

End Operations.

(** A hook that also records each of its calls: the element it was given
    and the length of the sequence it found. *)
Definition traced {T D : Type} (H : Hook T D) : Hook T (D * list (T * nat)) :=
  fun e this =>
    d <- H e (mk (elements_ this) (fst (members this))) ;;
    Returns (d, snd (members this) ++ [(e, List.length (elements_ this))]).

Definition calls {T D : Type} (this : t T (D * list (T * nat))) : list (T * nat) :=
  snd (members this).

(** The list [l] with the element at position [i] replaced by [x]. *)
Fixpoint replace_at {T : Type} (l : list T) (i : nat) (x : T) : list T :=
  match l, i with
  | [], _ => []
  | _ :: l', O => x :: l'
  | y :: l', S i' => y :: replace_at l' i' x
  end.

(** [operator[]] returns a reference to [elements_[i]], so a caller can
    assign through it: the element is replaced in place and nothing else
    runs, the hook in particular.  Past the end the access is the unchecked
    one. *)
Definition assign_at {T D : Type} (this : t T D) (i : nat) (x : T) : outcome (t T D) :=
  if Nat.ltb i (List.length (elements_ this))
  then Returns (mk (replace_at (elements_ this) i x) (members this))
  else Undefined.

End Vectorized.

(** A hook that returns whatever it is given. *)
Definition total_hook {T D : Type} (H : Vectorized.Hook T D) : Prop :=
  forall e this, exists d, H e this = Returns d.

(* ------------------------------------------------------------------------- *)
(** ** Data members and their accessors *)

(** Modelled from the spec: ast_def_macros.hpp, which defines [ADD_PROPERTY]
    and [ATTACH_OPERATIONS], is not among the sources.  The specification
    speaks of per-node fields that are read and, for the derived flags,
    updated; the uses in ast.hpp fix the rest: [ADD_PROPERTY(type, name)]
    written in a class declares in that class a data member [name_] (named in
    the constructors' initialiser lists), a reader [name()] and a writer
    [name(value)] (as in [has_reference(true)]).  Below, a record field is the
    data member, its projection the reader, and a [set_] function the writer.
    A class that repeats [ADD_PROPERTY] for a name of its base class thereby
    has a member and accessors of its own, which hide the inherited ones.
    A member that no constructor initialiser names holds no value until its
    writer is called: it is [indeterminate], and its reader then has no
    defined result. *)
Inductive member (A : Type) : Type :=
| indeterminate
| holds (a : A).

Arguments indeterminate {A}.
Arguments holds {A} a.

Definition read {A : Type} (m : member A) : outcome A :=
  match m with
  | holds a => Returns a
  | indeterminate => Undefined
  end.

(** [AST_Node]: the source path and line every node carries. *)
Module AST_Node.
Record t : Type := new {
  path_ : string;
  line_ : N
}.
End AST_Node.

(** What an [Expression*] gives access to: the members of the abstract class
    [Expression] and the string the virtual [type()] of the node returns. *)
Module Expression.
Record t : Type := mk {
  node : AST_Node.t;
  is_delayed_ : bool;
  is_parenthesized_ : bool;
  type : string
}.
End Expression.

(* ------------------------------------------------------------------------- *)
(** ** Parameter and Parameters

    [Parameter], [Parameters] and [Arguments] are reserved words here, so the
    three classes carry the name of their namespace, [Sass]. *)

Module Sass_Parameter.
Record t : Type := mk {
  node : AST_Node.t;
  name_ : string;
  default_value_ : option Expression.t;
  is_rest_parameter_ : bool
}.

(** [if (p->default_value())]: the pointer is not null. *)
Definition has_default_value (p : t) : bool :=
  match default_value_ p with Some _ => true | None => false end.

(** The constructor; its body is a comment and nothing else. *)
Definition new (p : string) (l : N) (n : string)
    (def : option Expression.t) (rest : bool) : outcome t :=
  this <- Returns (mk (AST_Node.new p l) n def rest) ;;
  skip this.
End Sass_Parameter.

Module Sass_Parameters.
Record members : Type := mk {
  node : AST_Node.t;
  has_optional_parameters_ : bool;
  has_rest_parameter_ : bool
}.

Definition set_has_optional_parameters (b : bool) (m : members) : members :=
  mk (node m) b (has_rest_parameter_ m).

Definition set_has_rest_parameter (b : bool) (m : members) : members :=
  mk (node m) (has_optional_parameters_ m) b.

Definition t : Type := Vectorized.t Sass_Parameter.t members.

(** Every [; // error] of the source is an empty statement. *)
Definition adjust_after_pushing_body (p : Sass_Parameter.t) : action members :=
  ite (fun _ => Sass_Parameter.has_default_value p)
    (when has_rest_parameter_ skip ;;;
     assign (set_has_optional_parameters true))
    (ite (fun _ => Sass_Parameter.is_rest_parameter_ p)
       (when has_rest_parameter_ skip ;;;
        when has_optional_parameters_ skip ;;;
        assign (set_has_rest_parameter true))
       (when has_rest_parameter_ skip ;;;
        when has_optional_parameters_ skip)).

#[global] Instance adjust_after_pushing : Vectorized.Hook Sass_Parameter.t members :=
  fun p this => adjust_after_pushing_body p (Vectorized.members this).

Definition new (p : string) (l : N) : t :=
  Vectorized.new 0 (mk (AST_Node.new p l) false false).

Definition has_optional_parameters (this : t) : bool :=
  has_optional_parameters_ (Vectorized.members this).

Definition has_rest_parameter (this : t) : bool :=
  has_rest_parameter_ (Vectorized.members this).
End Sass_Parameters.

(* ------------------------------------------------------------------------- *)
(** ** Argument and Arguments *)

Module Argument.
Record t : Type := mk {
  node : AST_Node.t;
  value_ : option Expression.t;
  name_ : string;
  is_rest_argument_ : bool
}.

(** [name_] is not the empty string: the test [!name().empty()]. *)
Definition is_named (a : t) : bool :=
  negb (String.eqb (name_ a) EmptyString).

(** The constructor: its body tests whether [name_] is not empty and
    [is_rest_argument_] is set, and the branch of that test is an empty block
    holding the comment "error". *)
Definition new (p : string) (l : N) (val : option Expression.t)
    (n : string) (rest : bool) : outcome t :=
  this <- Returns (mk (AST_Node.new p l) val n rest) ;;
  when (fun this => is_named this && is_rest_argument_ this) skip this.
End Argument.

Module Sass_Arguments.
Record members : Type := mk {
  node : AST_Node.t;
  has_named_arguments_ : bool;
  has_rest_argument_ : bool
}.

Definition set_has_named_arguments (b : bool) (m : members) : members :=
  mk (node m) b (has_rest_argument_ m).

Definition set_has_rest_argument (b : bool) (m : members) : members :=
  mk (node m) (has_named_arguments_ m) b.

Definition t : Type := Vectorized.t Argument.t members.

Definition adjust_after_pushing_body (a : Argument.t) : action members :=
  ite (fun _ => Argument.is_named a)
    (when has_rest_argument_ skip ;;;
     assign (set_has_named_arguments true))
    (ite (fun _ => Argument.is_rest_argument_ a)
       (when has_rest_argument_ skip ;;;
        when has_named_arguments_ skip ;;;
        assign (set_has_rest_argument true))
       (when has_rest_argument_ skip ;;;
        when has_named_arguments_ skip)).

#[global] Instance adjust_after_pushing : Vectorized.Hook Argument.t members :=
  fun a this => adjust_after_pushing_body a (Vectorized.members this).

Definition new (p : string) (l : N) : t :=
  Vectorized.new 0 (mk (AST_Node.new p l) false false).

Definition has_named_arguments (this : t) : bool :=
  has_named_arguments_ (Vectorized.members this).

Definition has_rest_argument (this : t) : bool :=
  has_rest_argument_ (Vectorized.members this).
End Sass_Arguments.

(** [Function_Call], an expression holding an argument list. *)
Module Function_Call.
Record t : Type := mk {
  base : Expression.t;
  name_ : string;
  arguments_ : option Sass_Arguments.t
}.
End Function_Call.

(* ------------------------------------------------------------------------- *)
(** ** Selectors *)

(** The abstract class [Selector]: the two flags every selector inherits. *)
Module Selector.
Record t : Type := mk {
  node : AST_Node.t;
  has_reference_ : bool;
  has_placeholder_ : bool
}.

(** [Selector(string p, size_t l, bool r = false, bool h = false)] *)
Definition new (p : string) (l : N) (r h : bool) : t :=
  mk (AST_Node.new p l) r h.

Definition set_has_reference (b : bool) (s : t) : t :=
  mk (node s) b (has_placeholder_ s).

Definition set_has_placeholder (b : bool) (s : t) : t :=
  mk (node s) (has_reference_ s) b.
End Selector.

(** The simple selectors, one constructor per concrete class.  [base] is the
    inherited [Selector] part.  The member [selector_] of
    [Selector_Reference], which its constructor does not set and ast.hpp never
    reads, is left out. *)
Module Simple_Selector.
Inductive t : Type :=
| Selector_Reference (base : Selector.t)
| Selector_Placeholder (base : Selector.t) (name_ : string)
| Type_Selector (base : Selector.t) (name_ : string)
| Selector_Qualifier (base : Selector.t) (name_ : string)
| Attribute_Selector (base : Selector.t) (name_ matcher_ value_ : string)
| Pseudo_Selector (base : Selector.t) (name_ : string)
    (expression_ : option Expression.t)
| Negated_Selector (base : Selector.t) (selector_ : option t).

Definition base (s : t) : Selector.t :=
  match s with
  | Selector_Reference b => b
  | Selector_Placeholder b _ => b
  | Type_Selector b _ => b
  | Selector_Qualifier b _ => b
  | Attribute_Selector b _ _ _ => b
  | Pseudo_Selector b _ _ => b
  | Negated_Selector b _ => b
  end.

(** The inherited readers, as called through a [Simple_Selector*]. *)
Definition has_reference (s : t) : bool := Selector.has_reference_ (base s).
Definition has_placeholder (s : t) : bool := Selector.has_placeholder_ (base s).

(** [Simple_Selector(string p, size_t l) : Selector(p, l)] *)
Definition new (p : string) (l : N) : Selector.t := Selector.new p l false false.

(** The simple selectors found in [s]: [s] itself and, behind the member
    [selector_] of a [Negated_Selector], the ones it wraps. *)
Fixpoint contained (s : t) : list t :=
  s :: match s with
       | Negated_Selector _ (Some s') => contained s'
       | _ => []
       end.

(** The dynamic class of the simple selector. *)
Definition is_Selector_Reference (s : t) : bool :=
  match s with
  | Selector_Reference _ => true
  | Selector_Placeholder _ _ | Type_Selector _ _ | Selector_Qualifier _ _
  | Attribute_Selector _ _ _ _ | Pseudo_Selector _ _ _ | Negated_Selector _ _ => false
  end.

Definition is_Selector_Placeholder (s : t) : bool :=
  match s with
  | Selector_Placeholder _ _ => true
  | Selector_Reference _ | Type_Selector _ _ | Selector_Qualifier _ _
  | Attribute_Selector _ _ _ _ | Pseudo_Selector _ _ _ | Negated_Selector _ _ => false
  end.

(** The flags of [s] are the ones the constructor of its class gives: no
    writer was called on it since. *)
Definition as_constructed (s : t) : bool :=
  Bool.eqb (has_reference s) (is_Selector_Reference s)
  && Bool.eqb (has_placeholder s) (is_Selector_Placeholder s).
End Simple_Selector.

(** The constructors of the concrete simple selector classes. *)
Module Selector_Reference.
(** [{ has_reference(true); }] *)
Definition new (p : string) (l : N) : Simple_Selector.t :=
  Simple_Selector.Selector_Reference
    (Selector.set_has_reference true (Simple_Selector.new p l)).
End Selector_Reference.

Module Selector_Placeholder.
(** [{ has_placeholder(true); }] *)
Definition new (p : string) (l : N) (n : string) : Simple_Selector.t :=
  Simple_Selector.Selector_Placeholder
    (Selector.set_has_placeholder true (Simple_Selector.new p l)) n.
End Selector_Placeholder.

Module Type_Selector.
Definition new (p : string) (l : N) (n : string) : Simple_Selector.t :=
  Simple_Selector.Type_Selector (Simple_Selector.new p l) n.
End Type_Selector.

Module Selector_Qualifier.
Definition new (p : string) (l : N) (n : string) : Simple_Selector.t :=
  Simple_Selector.Selector_Qualifier (Simple_Selector.new p l) n.
End Selector_Qualifier.

Module Attribute_Selector.
Definition new (p : string) (l : N) (n m v : string) : Simple_Selector.t :=
  Simple_Selector.Attribute_Selector (Simple_Selector.new p l) n m v.
End Attribute_Selector.

Module Pseudo_Selector.
Definition new (p : string) (l : N) (n : string)
    (expr : option Expression.t) : Simple_Selector.t :=
  Simple_Selector.Pseudo_Selector (Simple_Selector.new p l) n expr.
End Pseudo_Selector.

Module Negated_Selector.
(** [: Simple_Selector(p, l), selector_(sel) { }]: the flags of [sel] are
    not looked at. *)
Definition new (p : string) (l : N)
    (sel : option Simple_Selector.t) : Simple_Selector.t :=
  Simple_Selector.Negated_Selector (Simple_Selector.new p l) sel.
End Negated_Selector.

Module Simple_Selector_Sequence.
Definition t : Type := Vectorized.t Simple_Selector.t Selector.t.

(** [has_reference(has_reference() || s->has_reference());]
    [has_placeholder(has_placeholder() || s->has_placeholder());]
    through the readers and writers inherited from [Selector]. *)
Definition adjust_after_pushing_body (s : Simple_Selector.t) : action Selector.t :=
  assign (fun m => Selector.set_has_reference
                     (Selector.has_reference_ m || Simple_Selector.has_reference s) m) ;;;
  assign (fun m => Selector.set_has_placeholder
                     (Selector.has_placeholder_ m || Simple_Selector.has_placeholder s) m).

#[global] Instance adjust_after_pushing : Vectorized.Hook Simple_Selector.t Selector.t :=
  fun s this => adjust_after_pushing_body s (Vectorized.members this).

Definition new (p : string) (l : N) (s : N) : t :=
  Vectorized.new s (Selector.new p l false false).

Definition has_reference (this : t) : bool :=
  Selector.has_reference_ (Vectorized.members this).

Definition has_placeholder (this : t) : bool :=
  Selector.has_placeholder_ (Vectorized.members this).
End Simple_Selector_Sequence.

Module Selector_Combination.
Inductive Combinator : Type := ANCESTOR_OF | PARENT_OF | PRECEDES | ADJACENT_TO.

(** [base] is the inherited [Selector] part.  The class repeats
    [ADD_PROPERTY(bool, has_reference)] and [ADD_PROPERTY(bool,
    has_placeholder)], so it has two members of its own under those names,
    next to the inherited ones. *)
Inductive t : Type := mk {
  base : Selector.t;
  combinator_ : Combinator;
  head_ : option Simple_Selector_Sequence.t;
  tail_ : option t;
  has_reference_ : member bool;
  has_placeholder_ : member bool
}.

(** The readers and writers the class declares: they return and assign its
    own members, and are the ones found through a [Selector_Combination*]. *)
Definition has_reference (c : t) : outcome bool := read (has_reference_ c).
Definition has_placeholder (c : t) : outcome bool := read (has_placeholder_ c).

Definition set_has_reference (b : bool) (c : t) : t :=
  mk (base c) (combinator_ c) (head_ c) (tail_ c) (holds b) (has_placeholder_ c).

Definition set_has_placeholder (b : bool) (c : t) : t :=
  mk (base c) (combinator_ c) (head_ c) (tail_ c) (has_reference_ c) (holds b).

(** The constructor.  Its initialiser list names [Selector(p, l, ..., ...)],
    [combinator_], [head_] and [tail_]; the two members the class declares
    itself get no value.  [h] is a [Simple_Selector_Sequence*], whose
    readers are the inherited ones; [t] is a [Selector_Combination*]. *)
Definition new (p : string) (l : N) (c : Combinator)
    (h : option Simple_Selector_Sequence.t) (t' : option t) : outcome t :=
  r <- or_else
         (and_then h (fun h => Returns (Simple_Selector_Sequence.has_reference h)))
         (and_then t' has_reference) ;;
  pl <- or_else
          (and_then h (fun h => Returns (Simple_Selector_Sequence.has_placeholder h)))
          (and_then t' has_placeholder) ;;
  Returns (mk (Selector.new p l r pl) c h t' indeterminate indeterminate).
End Selector_Combination.

Module Selector_Group.
(** [base] is the inherited [Selector] part; the class repeats both
    [ADD_PROPERTY] lines, and its constructor sets its own two members. *)
Record members : Type := mk {
  base : Selector.t;
  has_reference_ : bool;
  has_placeholder_ : bool
}.

Definition set_has_reference (b : bool) (m : members) : members :=
  mk (base m) b (has_placeholder_ m).

Definition set_has_placeholder (b : bool) (m : members) : members :=
  mk (base m) (has_reference_ m) b.

Definition t : Type := Vectorized.t Selector_Combination.t members.

(** [has_reference_ |= c->has_reference();]
    [has_placeholder_ |= c->has_placeholder();] *)
Definition adjust_after_pushing_body (c : Selector_Combination.t) : action members :=
  (fun m => r <- Selector_Combination.has_reference c ;;
            Returns (set_has_reference (has_reference_ m || r) m)) ;;;
  (fun m => h <- Selector_Combination.has_placeholder c ;;
            Returns (set_has_placeholder (has_placeholder_ m || h) m)).

#[global] Instance adjust_after_pushing : Vectorized.Hook Selector_Combination.t members :=
  fun c this => adjust_after_pushing_body c (Vectorized.members this).

Definition new (p : string) (l : N) (s : N) : t :=
  Vectorized.new s (mk (Selector.new p l false false) false false).

Definition has_reference (this : t) : bool :=
  has_reference_ (Vectorized.members this).

Definition has_placeholder (this : t) : bool :=
  has_placeholder_ (Vectorized.members this).
End Selector_Group.

(** What a [Selector*] may point to. *)
Inductive Selector_object : Type :=
| Selector_Schema (base : Selector.t) (contents_ : option Expression.t)
| Simple (s : Simple_Selector.t)
| Sequence (s : Simple_Selector_Sequence.t)
| Combination (c : Selector_Combination.t)
| Group (g : Selector_Group.t).

(* ------------------------------------------------------------------------- *)
(** ** Statements and blocks *)

(** The statements, one constructor per concrete class; [node] is the
    inherited [AST_Node] part and [block_] the member of [Has_Block].  A
    [String*], [List*] or [Expression*] member is seen as an [Expression*].
    [Import] and [Definition] are reserved words here, so the two classes
    carry the name of their namespace. *)
Module Statement.
Record Block_members : Type := mk_Block {
  Block_node : AST_Node.t;
  is_root_ : bool;
  has_hoistable_ : bool;
  has_non_hoistable_ : bool
}.

Inductive Definition_Type : Type := MIXIN | FUNCTION.

Inductive t : Type :=
| Block (b : Vectorized.t t Block_members)
| Ruleset (node : AST_Node.t) (block_ : option (Vectorized.t t Block_members))
    (selector_ : option Selector_object)
| Propset (node : AST_Node.t) (block_ : option (Vectorized.t t Block_members))
    (property_fragment_ : option Expression.t)
| Media_Block (node : AST_Node.t) (block_ : option (Vectorized.t t Block_members))
    (media_queries_ : option Expression.t)
| At_Rule (node : AST_Node.t) (block_ : option (Vectorized.t t Block_members))
    (keyword_ : string) (selector_ : option Selector_object)
| Declaration (node : AST_Node.t) (property_ value_ : option Expression.t)
    (is_important_ : bool)
| Assignment (node : AST_Node.t) (variable_ : string)
    (value_ : option Expression.t) (is_guarded_ : bool)
| Sass_Import (node : AST_Node.t) (files_ : list string)
    (urls_ : list (option Function_Call.t))
| Import_Stub (node : AST_Node.t) (file_name_ : string)
| Warning (node : AST_Node.t) (message_ : option Expression.t)
| Comment (node : AST_Node.t) (text_ : option Expression.t)
| If (node : AST_Node.t) (predicate_ : option Expression.t)
    (consequent_ alternative_ : option (Vectorized.t t Block_members))
| For (node : AST_Node.t) (block_ : option (Vectorized.t t Block_members))
    (variable_ : string) (lower_bound_ upper_bound_ : option Expression.t)
    (is_inclusive_ : bool)
| Each (node : AST_Node.t) (block_ : option (Vectorized.t t Block_members))
    (variable_ : string) (list_ : option Expression.t)
| While (node : AST_Node.t) (block_ : option (Vectorized.t t Block_members))
    (predicate_ : option Expression.t)
| Return (node : AST_Node.t) (value_ : option Expression.t)
| Content (node : AST_Node.t)
| Extend (node : AST_Node.t) (selector_ : option Selector_object)
| Sass_Definition (node : AST_Node.t)
    (block_ : option (Vectorized.t t Block_members))
    (name_ : string) (parameters_ : option Sass_Parameters.t)
    (type_ : Definition_Type)
| Mixin_Call (node : AST_Node.t) (block_ : option (Vectorized.t t Block_members))
    (name_ : string) (arguments_ : option Sass_Arguments.t).

(** The virtual [is_hoistable()]: [Statement] returns [false], and
    [Ruleset] is the one class that overrides it. *)
Definition is_hoistable (s : t) : bool :=
  match s with
  | Ruleset _ _ _ => true
  | _ => false
  end.

(** The dynamic class of the statement is [Ruleset]. *)
Definition is_Ruleset (s : t) : bool :=
  match s with
  | Ruleset _ _ _ => true
  | Block _ | Propset _ _ _ | Media_Block _ _ _ | At_Rule _ _ _ _
  | Declaration _ _ _ _ | Assignment _ _ _ _ | Sass_Import _ _ _
  | Import_Stub _ _ | Warning _ _ | Comment _ _ | If _ _ _ _
  | For _ _ _ _ _ _ | Each _ _ _ _ | While _ _ _ | Return _ _ | Content _
  | Extend _ _ | Sass_Definition _ _ _ _ _ | Mixin_Call _ _ _ _ => false
  end.
End Statement.

Module Block.
Import Statement.

Definition t : Type := Vectorized.t Statement.t Block_members.

Definition set_has_hoistable (b : bool) (m : Block_members) : Block_members :=
  mk_Block (Block_node m) (is_root_ m) b (has_non_hoistable_ m).

Definition set_has_non_hoistable (b : bool) (m : Block_members) : Block_members :=
  mk_Block (Block_node m) (is_root_ m) (has_hoistable_ m) b.

(** [if (s->is_hoistable()) has_hoistable_     = true;]
    [else                   has_non_hoistable_ = false;] *)
Definition adjust_after_pushing_body (s : Statement.t) : action Block_members :=
  ite (fun _ => is_hoistable s)
    (assign (set_has_hoistable true))
    (assign (set_has_non_hoistable false)).

#[global] Instance adjust_after_pushing : Vectorized.Hook Statement.t Block_members :=
  fun s this => adjust_after_pushing_body s (Vectorized.members this).

(** [Block(string p, size_t l, size_t s = 0, bool r = false)] *)
Definition new (p : string) (l : N) (s : N) (r : bool) : t :=
  Vectorized.new s (mk_Block (AST_Node.new p l) r false false).

Definition has_hoistable (this : t) : bool :=
  has_hoistable_ (Vectorized.members this).

Definition has_non_hoistable (this : t) : bool :=
  has_non_hoistable_ (Vectorized.members this).
End Block.

(** [List] and [String_Schema] mix [Vectorized<Expression*>] in and keep the
    hook that does nothing. *)
Module Sass_List.
Inductive Separator : Type := space | comma.

Record members : Type := mk {
  base : Expression.t;
  separator_ : Separator;
  is_arglist_ : bool
}.

Definition t : Type := Vectorized.t Expression.t members.

#[global] Instance adjust_after_pushing : Vectorized.Hook Expression.t members :=
  Vectorized.default_hook.

(** [string type() { return is_arglist_ ? "arglist" : "list"; }] *)
Definition type (this : t) : string :=
  if is_arglist_ (Vectorized.members this) then "arglist" else "list".

Definition new (p : string) (l : N) (size : N) (sep : Separator) (argl : bool) : t :=
  Vectorized.new size
    (mk (Expression.mk (AST_Node.new p l) false false
           (if argl then "arglist" else "list")) sep argl).
End Sass_List.

(* ------------------------------------------------------------------------- *)
(** ** Nodes used as concrete inputs *)

Module Example.
Definition file : string := "style.scss".
Definition here : AST_Node.t := AST_Node.new file 1.

(** The expression [1]. *)
Definition one : Expression.t := Expression.mk here false false "number".

(** The parameters [$a], [$b], [$c: 1], [$d...], and one with both a default
    value and the rest flag. *)
Definition required_a : Sass_Parameter.t := Sass_Parameter.mk here "a" None false.
Definition required_b : Sass_Parameter.t := Sass_Parameter.mk here "b" None false.
Definition optional_c : Sass_Parameter.t := Sass_Parameter.mk here "c" (Some one) false.
Definition rest_d : Sass_Parameter.t := Sass_Parameter.mk here "d" None true.
Definition default_and_rest : Sass_Parameter.t :=
  Sass_Parameter.mk here "e" (Some one) true.

(** The arguments [1], [$x: 1], [1...], and one with both a name and the
    rest flag. *)
Definition positional : Argument.t := Argument.mk here (Some one) EmptyString false.
Definition named_x : Argument.t := Argument.mk here (Some one) "x" false.
Definition rest_argument : Argument.t := Argument.mk here (Some one) EmptyString true.
Definition name_and_rest : Argument.t := Argument.mk here (Some one) "x" true.

(** A declaration and a ruleset with an empty body. *)
Definition declaration : Statement.t :=
  Statement.Declaration here (Some one) (Some one) false.
Definition ruleset : Statement.t :=
  Statement.Ruleset here (Some (Block.new file 1 0 false)) None.

(** [:not(%foo)] *)
Definition not_placeholder : Simple_Selector.t :=
  Negated_Selector.new file 1 (Some (Selector_Placeholder.new file 1 "foo")).

(** A combination whose own flags were assigned through its writers. *)
Definition assigned_combination : Selector_Combination.t :=
  Selector_Combination.set_has_placeholder false
    (Selector_Combination.set_has_reference true
       (Selector_Combination.mk (Selector.new file 1 false false)
          Selector_Combination.PARENT_OF None None indeterminate indeterminate)).

(** A block holding one declaration, with a hook that records its calls. *)
Definition traced_block : Vectorized.t Statement.t
                            (Statement.Block_members * list (Statement.t * nat)) :=
  Vectorized.mk [declaration]
    (Statement.mk_Block here false false false, [(declaration, 1)]).
End Example.

(* ------------------------------------------------------------------------- *)
(** * Properties of Vectorized<T> *)

Lemma bind_Returns {A B : Type} (c : outcome A) (k : A -> outcome B) (b : B) :
  bind c k = Returns b -> exists a, c = Returns a /\ k a = Returns b.
Proof.
  destruct c as [a | e | ]; simpl; intros E; try discriminate.
  exists a; split; [reflexivity | exact E].
Qed.

Section VectorizedFacts.
Context {T D : Type} {H : Vectorized.Hook T D}.

Lemma push_elements (this this' : Vectorized.t T D) (e : T) :
  Vectorized.push this e = Returns this' ->
  Vectorized.elements_ this' = Vectorized.elements_ this ++ [e].
Proof.
  unfold Vectorized.push; simpl.
  destruct (Vectorized.adjust_after_pushing _ _) as [d | x | ]; simpl;
    intros E; try discriminate.
  injection E as <-; reflexivity.
Qed.

Lemma fold_push_stuck (es : list T) (c : outcome (Vectorized.t T D)) :
  (forall this, c <> Returns this) ->
  fold_left (fun acc e => this' <- acc ;; Vectorized.push this' e) es c = c.
Proof.
  revert c; induction es as [| e es IH]; intros c Hc; simpl.
  - reflexivity.
  - destruct c as [a | x | ]; simpl.
    + exfalso; exact (Hc a eq_refl).
    + apply IH; intros this; discriminate.
    + apply IH; intros this; discriminate.
Qed.

Lemma push_all_cons (this : Vectorized.t T D) (e : T) (es : list T) :
  Vectorized.push_all this (e :: es)
  = (this' <- Vectorized.push this e ;; Vectorized.push_all this' es).
Proof.
  unfold Vectorized.push_all; simpl.
  destruct (Vectorized.push this e) as [a | x | ]; simpl.
  - reflexivity.
  - apply fold_push_stuck; intros t'; discriminate.
  - apply fold_push_stuck; intros t'; discriminate.
Qed.

Lemma push_all_nil (this : Vectorized.t T D) :
  Vectorized.push_all this [] = Returns this.
Proof. reflexivity. Qed.

(** The elements [v] points to keep the ones it had when [operator+=] was
    entered as a prefix, whatever is pushed onto [*this]. *)
Lemma deref_prefix_push (v : Vectorized.operand) (this this' : Vectorized.t T D)
    (e : T) (src rest : list T) :
  Vectorized.elements_ (Vectorized.deref v this) = src ++ rest ->
  Vectorized.push this e = Returns this' ->
  exists rest', Vectorized.elements_ (Vectorized.deref v this') = src ++ rest'.
Proof.
  intros Hsrc Hpush; destruct v as [o | ]; simpl in *.
  - exists rest; exact Hsrc.
  - exists (rest ++ [e]).
    rewrite (push_elements _ _ Hpush), Hsrc, app_assoc; reflexivity.
Qed.

Lemma plus_eq_loop_push_all (src : list T) (v : Vectorized.operand) :
  forall (n i : nat) (this : Vectorized.t T D),
    i + n = List.length src ->
    (exists rest, Vectorized.elements_ (Vectorized.deref v this) = src ++ rest) ->
    Vectorized.plus_eq_loop n i v this = Vectorized.push_all this (skipn i src).
Proof.
  induction n as [| n IH]; intros i this Hlen [rest Hsrc].
  - simpl. rewrite skipn_all2 by lia. reflexivity.
  - assert (Hi : i < List.length src) by lia.
    destruct (nth_error src i) as [e |] eqn:He;
      [| apply nth_error_None in He; lia].
    assert (Hskip : skipn i src = e :: skipn (S i) src).
    { clear - He. revert i He; induction src as [| x xs IHs]; intros [| i] He;
        simpl in *; try discriminate.
      - injection He as ->; reflexivity.
      - apply IHs; exact He. }
    rewrite Hskip, push_all_cons.
    cbn [Vectorized.plus_eq_loop].
    unfold Vectorized.index at 1.
    rewrite Hsrc, nth_error_app1, He by exact Hi.
    cbn [bind].
    destruct (Vectorized.push this e) as [this' | x | ] eqn:Hpush; simpl;
      try reflexivity.
    apply IH; [lia |].
    eapply deref_prefix_push; eassumption.
Qed.

Lemma plus_eq_push_all (this : Vectorized.t T D) (v : Vectorized.operand) :
  Vectorized.plus_eq this v
  = Vectorized.push_all this (Vectorized.elements_ (Vectorized.deref v this)).
Proof.
  unfold Vectorized.plus_eq, Vectorized.length.
  rewrite (plus_eq_loop_push_all (Vectorized.elements_ (Vectorized.deref v this)) v).
  - reflexivity.
  - reflexivity.
  - exists []; rewrite app_nil_r; reflexivity.
Qed.

Lemma push_all_total (Htot : total_hook H) (es : list T) :
  forall this : Vectorized.t T D,
    exists this', Vectorized.push_all this es = Returns this'
                  /\ Vectorized.elements_ this' = Vectorized.elements_ this ++ es.
Proof.
  induction es as [| e es IH]; intros this.
  - exists this; rewrite app_nil_r; split; reflexivity.
  - rewrite push_all_cons.
    destruct (Htot e (Vectorized.mk (Vectorized.elements_ this ++ [e])
                        (Vectorized.members this))) as [d Hd].
    unfold Vectorized.push at 1; cbn [Vectorized.elements_ Vectorized.members].
    unfold Vectorized.adjust_after_pushing; rewrite Hd; cbn [bind].
    destruct (IH (Vectorized.mk (Vectorized.elements_ this ++ [e]) d))
      as [this' [E1 E2]].
    exists this'; split; [exact E1 |].
    rewrite E2; simpl; rewrite <- app_assoc; reflexivity.
Qed.

End VectorizedFacts.

Section TracedHook.
Context {T D : Type} (H : Vectorized.Hook T D).

Lemma traced_total : total_hook H -> total_hook (Vectorized.traced H).
Proof.
  intros Htot e this; unfold Vectorized.traced.
  destruct (Htot e (Vectorized.mk (Vectorized.elements_ this)
                      (fst (Vectorized.members this)))) as [d Hd].
  rewrite Hd; simpl; eexists; reflexivity.
Qed.

(** Pushing a list calls the hook once for each element, in order, and each
    call finds the sequence already holding the element it is called for. *)
Lemma push_all_traced_calls (Htot : total_hook H) (es : list T) :
  forall this : Vectorized.t T (D * list (T * nat)),
    exists this',
      Vectorized.push_all (H := Vectorized.traced H) this es = Returns this'
      /\ Vectorized.elements_ this' = Vectorized.elements_ this ++ es
      /\ Vectorized.calls this'
         = Vectorized.calls this
           ++ combine es (List.seq (S (Vectorized.length this)) (List.length es)).
Proof.
  induction es as [| e es IH]; intros this.
  - exists this; simpl; rewrite !app_nil_r; repeat split; reflexivity.
  - rewrite push_all_cons.
    destruct (Htot e (Vectorized.mk (Vectorized.elements_ this ++ [e])
                        (fst (Vectorized.members this)))) as [d Hd].
    unfold Vectorized.push at 1; cbn [Vectorized.elements_ Vectorized.members].
    unfold Vectorized.adjust_after_pushing at 1, Vectorized.traced at 1.
    cbn [Vectorized.elements_ Vectorized.members].
    rewrite Hd; cbn [bind].
    match goal with
    | |- exists _, Vectorized.push_all ?x _ = _ /\ _ => destruct (IH x) as [this' [E1 [E2 E3]]]
    end.
    exists this'; split; [exact E1 | split].
    + rewrite E2; simpl; rewrite <- app_assoc; reflexivity.
    + rewrite E3; unfold Vectorized.calls, Vectorized.length; simpl.
      rewrite <- app_assoc, !length_app; simpl.
      replace (List.length (Vectorized.elements_ this) + 1)
        with (S (List.length (Vectorized.elements_ this))) by lia.
      reflexivity.
Qed.
End TracedHook.

(** C8. For any sequences A and B, [A += B] leaves A in exactly the state
    reached by pushing the elements of B onto A one by one with [operator<<],
    in B's order (the same state, or the same failure of the hook); and
    [A += A] does the same with the elements A had on entry.  With a hook that
    returns, [A += B] returns A holding its former elements followed by those
    of B, and the hook has been called once for each element of B, in B's
    order, each call finding the element already added. *)
Theorem Vectorized_plus_eq_is_push_each :
  forall (T D : Type) (H : Vectorized.Hook T D),
    (forall A B : Vectorized.t T D,
        Vectorized.plus_eq A (Vectorized.Other B)
        = Vectorized.push_all A (Vectorized.elements_ B))
    /\ (forall A : Vectorized.t T D,
        Vectorized.plus_eq A Vectorized.Self
        = Vectorized.push_all A (Vectorized.elements_ A))
    /\ (total_hook H ->
        forall A B : Vectorized.t T (D * list (T * nat)),
          (exists A',
              Vectorized.plus_eq (H := Vectorized.traced H) A (Vectorized.Other B)
              = Returns A'
              /\ Vectorized.elements_ A'
                 = Vectorized.elements_ A ++ Vectorized.elements_ B
              /\ Vectorized.calls A'
                 = Vectorized.calls A
                   ++ combine (Vectorized.elements_ B)
                        (List.seq (S (Vectorized.length A))
                           (List.length (Vectorized.elements_ B))))
          /\ (exists A',
              Vectorized.plus_eq (H := Vectorized.traced H) A Vectorized.Self
              = Returns A'
              /\ Vectorized.elements_ A'
                 = Vectorized.elements_ A ++ Vectorized.elements_ A
              /\ Vectorized.calls A'
                 = Vectorized.calls A
                   ++ combine (Vectorized.elements_ A)
                        (List.seq (S (Vectorized.length A))
                           (List.length (Vectorized.elements_ A))))).
Proof.
  intros T D H; split; [| split].
  - intros A B; apply (plus_eq_push_all A (Vectorized.Other B)).
  - intros A; apply (plus_eq_push_all A Vectorized.Self).
  - intros Htot A B; split.
    + rewrite (plus_eq_push_all A (Vectorized.Other B)); cbn [Vectorized.deref].
      apply (push_all_traced_calls Htot).
    + rewrite (plus_eq_push_all A Vectorized.Self); cbn [Vectorized.deref].
      apply (push_all_traced_calls Htot).
Qed.

(** C9 (as amended). A sequence built by pushing e1..en in that order onto a
    new one, with a hook that returns, has length n and yields ei at every
    index i below n; at an index from n on, [operator[]] checks nothing and
    raises nothing: the access has no defined result. *)
Theorem Vectorized_index_of_pushed :
  forall (T D : Type) (H : Vectorized.Hook T D),
    total_hook H ->
    forall (s : N) (d : D) (es : list T),
    exists S,
      Vectorized.push_all (Vectorized.new s d) es = Returns S
      /\ Vectorized.length S = List.length es
      /\ Vectorized.elements_ S = es
      /\ (forall i, i < List.length es ->
            exists e, nth_error es i = Some e /\ Vectorized.index S i = Returns e)
      /\ (forall i, List.length es <= i -> Vectorized.index S i = Undefined).
Proof.
  intros T D H Htot s d es.
  destruct (push_all_total Htot es (Vectorized.new s d)) as [S [E1 E2]].
  simpl in E2.
  exists S; split; [exact E1 |].
  unfold Vectorized.length, Vectorized.index; rewrite E2.
  repeat split.
  - intros i Hi.
    destruct (nth_error es i) as [e |] eqn:He.
    + exists e; split; reflexivity.
    + apply nth_error_None in He; lia.
  - intros i Hi.
    destruct (nth_error es i) as [e |] eqn:He.
    + assert (i < List.length es) by (apply nth_error_Some; congruence); lia.
    + reflexivity.
Qed.

(* ------------------------------------------------------------------------- *)
(** * Blocks *)

Lemma Block_push (b : Block.t) (s : Statement.t) :
  Vectorized.push b s
  = Returns (Vectorized.mk (Vectorized.elements_ b ++ [s])
               (if Statement.is_hoistable s
                then Block.set_has_hoistable true (Vectorized.members b)
                else Block.set_has_non_hoistable false (Vectorized.members b))).
Proof.
  unfold Vectorized.push, Vectorized.adjust_after_pushing, Block.adjust_after_pushing,
    Block.adjust_after_pushing_body, ite, assign; simpl.
  destruct (Statement.is_hoistable s); reflexivity.
Qed.

Lemma Block_hook_total : total_hook Block.adjust_after_pushing.
Proof.
  intros s this; unfold Block.adjust_after_pushing, Block.adjust_after_pushing_body,
    ite, assign.
  destruct (Statement.is_hoistable s); eexists; reflexivity.
Qed.

Lemma is_hoistable_is_Ruleset (s : Statement.t) :
  Statement.is_hoistable s = Statement.is_Ruleset s.
Proof. destruct s; reflexivity. Qed.

Lemma Block_push_all_has_hoistable (stmts : list Statement.t) :
  forall b : Block.t,
    exists b',
      Vectorized.push_all b stmts = Returns b'
      /\ Vectorized.elements_ b' = Vectorized.elements_ b ++ stmts
      /\ Block.has_hoistable b'
         = Block.has_hoistable b || existsb Statement.is_hoistable stmts.
Proof.
  induction stmts as [| s stmts IH]; intros b.
  - exists b; simpl; rewrite app_nil_r, orb_false_r; repeat split; reflexivity.
  - rewrite push_all_cons, Block_push; cbn [bind].
    match goal with
    | |- exists _, Vectorized.push_all ?x _ = _ /\ _ => destruct (IH x) as [b' [E1 [E2 E3]]]
    end.
    exists b'; split; [exact E1 | split].
    + rewrite E2; simpl; rewrite <- app_assoc; reflexivity.
    + rewrite E3; unfold Block.has_hoistable; simpl.
      destruct (Statement.is_hoistable s); simpl.
      * rewrite orb_true_r; reflexivity.
      * reflexivity.
Qed.

(** C3 (what the code does). Pushing a statement onto a block returns.  A
    hoistable statement sets [has_hoistable_] and leaves [has_non_hoistable_]
    as it was; a statement that is not hoistable leaves [has_hoistable_] as it
    was and assigns [false] to [has_non_hoistable_], whatever it held. *)
Theorem Block_push_flags :
  forall (b : Block.t) (s : Statement.t),
  exists b',
    Vectorized.push b s = Returns b'
    /\ Vectorized.elements_ b' = Vectorized.elements_ b ++ [s]
    /\ (Statement.is_hoistable s = true ->
        Block.has_hoistable b' = true
        /\ Block.has_non_hoistable b' = Block.has_non_hoistable b)
    /\ (Statement.is_hoistable s = false ->
        Block.has_hoistable b' = Block.has_hoistable b
        /\ Block.has_non_hoistable b' = false).
Proof.
  intros b s; rewrite Block_push; eexists; split; [reflexivity |].
  unfold Block.has_hoistable, Block.has_non_hoistable; simpl.
  split; [reflexivity |].
  split; intros Hs; rewrite Hs; simpl; split; reflexivity.
Qed.

(** C4. A block built by pushing any statements onto a new block has
    [has_hoistable_] set as soon as one of them is a [Ruleset], and clear
    when none of them is hoistable; a statement is hoistable exactly when it
    is a [Ruleset]. *)
Theorem Block_has_hoistable_iff_Ruleset :
  forall (p : string) (l s : N) (r : bool) (stmts : list Statement.t),
  exists B,
    Vectorized.push_all (Block.new p l s r) stmts = Returns B
    /\ Vectorized.elements_ B = stmts
    /\ ((exists x, In x stmts /\ Statement.is_Ruleset x = true) ->
        Block.has_hoistable B = true)
    /\ ((forall x, In x stmts -> Statement.is_hoistable x = false) ->
        Block.has_hoistable B = false)
    /\ (forall x, Statement.is_hoistable x = Statement.is_Ruleset x).
Proof.
  intros p l s r stmts.
  destruct (Block_push_all_has_hoistable stmts (Block.new p l s r)) as [B [E1 [E2 E3]]].
  exists B; split; [exact E1 | split; [exact E2 |]].
  change (Block.has_hoistable (Block.new p l s r)) with false in E3; simpl in E3.
  repeat split.
  - intros [x [Hin Hx]]; rewrite E3.
    apply existsb_exists; exists x; split; [exact Hin |].
    rewrite is_hoistable_is_Ruleset; exact Hx.
  - intros Hall; rewrite E3.
    destruct (existsb Statement.is_hoistable stmts) eqn:E; [| reflexivity].
    apply existsb_exists in E; destruct E as [x [Hin Hx]].
    rewrite (Hall x Hin) in Hx; discriminate.
Qed.

(* ------------------------------------------------------------------------- *)
(** * Parameters and arguments *)

(** The hook of [Parameters] returns on every parameter and in every state:
    none of its branches does more than assign a flag. *)
Lemma Parameters_push (ps : Sass_Parameters.t) (p : Sass_Parameter.t) :
  Vectorized.push ps p
  = Returns (Vectorized.mk (Vectorized.elements_ ps ++ [p])
               (if Sass_Parameter.has_default_value p
                then Sass_Parameters.set_has_optional_parameters true
                       (Vectorized.members ps)
                else if Sass_Parameter.is_rest_parameter_ p
                     then Sass_Parameters.set_has_rest_parameter true
                            (Vectorized.members ps)
                     else Vectorized.members ps)).
Proof.
  unfold Vectorized.push, Vectorized.adjust_after_pushing,
    Sass_Parameters.adjust_after_pushing, Sass_Parameters.adjust_after_pushing_body,
    ite, when, seq, skip, assign, ite, bind; cbn beta iota.
  cbn [Vectorized.members Vectorized.elements_].
  destruct (Sass_Parameter.has_default_value p),
    (Sass_Parameter.is_rest_parameter_ p),
    (Sass_Parameters.has_rest_parameter_ (Vectorized.members ps)),
    (Sass_Parameters.has_optional_parameters_ (Vectorized.members ps));
    reflexivity.
Qed.

Lemma Arguments_push (args : Sass_Arguments.t) (a : Argument.t) :
  Vectorized.push args a
  = Returns (Vectorized.mk (Vectorized.elements_ args ++ [a])
               (if Argument.is_named a
                then Sass_Arguments.set_has_named_arguments true
                       (Vectorized.members args)
                else if Argument.is_rest_argument_ a
                     then Sass_Arguments.set_has_rest_argument true
                            (Vectorized.members args)
                     else Vectorized.members args)).
Proof.
  unfold Vectorized.push, Vectorized.adjust_after_pushing,
    Sass_Arguments.adjust_after_pushing, Sass_Arguments.adjust_after_pushing_body,
    ite, when, seq, skip, assign, ite, bind; cbn beta iota.
  cbn [Vectorized.members Vectorized.elements_].
  destruct (Argument.is_named a),
    (Argument.is_rest_argument_ a),
    (Sass_Arguments.has_rest_argument_ (Vectorized.members args)),
    (Sass_Arguments.has_named_arguments_ (Vectorized.members args));
    reflexivity.
Qed.

Lemma Parameter_new_returns (p : string) (l : N) (n : string)
    (def : option Expression.t) (rest : bool) :
  Sass_Parameter.new p l n def rest
  = Returns (Sass_Parameter.mk (AST_Node.new p l) n def rest).
Proof. reflexivity. Qed.

Lemma Argument_new_returns (p : string) (l : N) (val : option Expression.t)
    (n : string) (rest : bool) :
  Argument.new p l val n rest = Returns (Argument.mk (AST_Node.new p l) val n rest).
Proof.
  unfold Argument.new, when, ite, skip; simpl.
  destruct (Argument.is_named _ && rest); reflexivity.
Qed.

Ltac push_steps :=
  repeat (rewrite push_all_cons;
          first [rewrite Parameters_push | rewrite Arguments_push];
          cbn [bind]);
  rewrite push_all_nil.

(** The orders C1 accepts.  Onto any [Parameters], pushing parameters in the orders
    (required, required), (required, optional) and (required, optional, rest)
    returns, adds them at the end in that order, and records them in the
    flags: [has_optional_parameters_] is set by the optional parameter,
    [has_rest_parameter_] by the rest parameter, and a flag that was set
    stays set. *)
Theorem Parameters_accepted_orders :
  forall (ps : Sass_Parameters.t) (r1 r2 o rest : Sass_Parameter.t),
    Sass_Parameter.has_default_value r1 = false ->
    Sass_Parameter.is_rest_parameter_ r1 = false ->
    Sass_Parameter.has_default_value r2 = false ->
    Sass_Parameter.is_rest_parameter_ r2 = false ->
    Sass_Parameter.has_default_value o = true ->
    Sass_Parameter.is_rest_parameter_ o = false ->
    Sass_Parameter.has_default_value rest = false ->
    Sass_Parameter.is_rest_parameter_ rest = true ->
    (exists ps',
        Vectorized.push_all ps [r1; r2] = Returns ps'
        /\ Vectorized.elements_ ps' = Vectorized.elements_ ps ++ [r1; r2]
        /\ Sass_Parameters.has_optional_parameters ps'
           = Sass_Parameters.has_optional_parameters ps
        /\ Sass_Parameters.has_rest_parameter ps'
           = Sass_Parameters.has_rest_parameter ps)
    /\ (exists ps',
        Vectorized.push_all ps [r1; o] = Returns ps'
        /\ Vectorized.elements_ ps' = Vectorized.elements_ ps ++ [r1; o]
        /\ Sass_Parameters.has_optional_parameters ps' = true
        /\ Sass_Parameters.has_rest_parameter ps'
           = Sass_Parameters.has_rest_parameter ps)
    /\ (exists ps',
        Vectorized.push_all ps [r1; o; rest] = Returns ps'
        /\ Vectorized.elements_ ps' = Vectorized.elements_ ps ++ [r1; o; rest]
        /\ Sass_Parameters.has_optional_parameters ps' = true
        /\ Sass_Parameters.has_rest_parameter ps' = true).
Proof.
  intros ps r1 r2 o rest D1 R1 D2 R2 Do Ro Dr Rr.
  unfold Sass_Parameters.has_optional_parameters, Sass_Parameters.has_rest_parameter.
  repeat split; push_steps; cbn [Vectorized.elements_ Vectorized.members];
    rewrite ?D1, ?R1, ?D2, ?R2, ?Do, ?Ro, ?Dr, ?Rr;
    eexists; (split; [reflexivity |]); simpl; rewrite <- ?app_assoc;
    repeat split; reflexivity.
Qed.

(** C1 (what the code does). Onto any [Parameters], pushing parameters in the
    orders (optional, required), (rest, required) and (optional, rest,
    optional) returns as well: the push that meets a branch the source marks
    as an error runs an empty statement there, the parameter is added at the
    end like any other and the flags are updated; no push leaves with
    [ParameterOrderingViolation]. *)
Theorem Parameters_marked_orders_return :
  forall (ps : Sass_Parameters.t) (r o o' rest : Sass_Parameter.t),
    Sass_Parameter.has_default_value r = false ->
    Sass_Parameter.is_rest_parameter_ r = false ->
    Sass_Parameter.has_default_value o = true ->
    Sass_Parameter.is_rest_parameter_ o = false ->
    Sass_Parameter.has_default_value o' = true ->
    Sass_Parameter.is_rest_parameter_ o' = false ->
    Sass_Parameter.has_default_value rest = false ->
    Sass_Parameter.is_rest_parameter_ rest = true ->
    (exists ps1 ps2,
        Vectorized.push ps o = Returns ps1
        /\ Sass_Parameters.has_optional_parameters ps1 = true
        /\ Vectorized.push ps1 r = Returns ps2
        /\ Vectorized.push ps1 r <> Raises ParameterOrderingViolation
        /\ Vectorized.elements_ ps2 = Vectorized.elements_ ps ++ [o; r]
        /\ Sass_Parameters.has_optional_parameters ps2 = true
        /\ Sass_Parameters.has_rest_parameter ps2
           = Sass_Parameters.has_rest_parameter ps)
    /\ (exists ps1 ps2,
        Vectorized.push ps rest = Returns ps1
        /\ Sass_Parameters.has_rest_parameter ps1 = true
        /\ Vectorized.push ps1 r = Returns ps2
        /\ Vectorized.push ps1 r <> Raises ParameterOrderingViolation
        /\ Vectorized.elements_ ps2 = Vectorized.elements_ ps ++ [rest; r]
        /\ Sass_Parameters.has_optional_parameters ps2
           = Sass_Parameters.has_optional_parameters ps
        /\ Sass_Parameters.has_rest_parameter ps2 = true)
    /\ (exists ps1 ps2 ps3,
        Vectorized.push ps o = Returns ps1
        /\ Sass_Parameters.has_optional_parameters ps1 = true
        /\ Vectorized.push ps1 rest = Returns ps2
        /\ Vectorized.push ps1 rest <> Raises ParameterOrderingViolation
        /\ Sass_Parameters.has_rest_parameter ps2 = true
        /\ Vectorized.push ps2 o' = Returns ps3
        /\ Vectorized.push ps2 o' <> Raises ParameterOrderingViolation
        /\ Vectorized.elements_ ps3 = Vectorized.elements_ ps ++ [o; rest; o']
        /\ Sass_Parameters.has_optional_parameters ps3 = true
        /\ Sass_Parameters.has_rest_parameter ps3 = true).
Proof.
  intros ps r o o' rest Dr Rr Do Ro Do' Ro' Drest Rrest.
  unfold Sass_Parameters.has_optional_parameters, Sass_Parameters.has_rest_parameter.
  split; [| split].
  - do 2 eexists; split; [apply Parameters_push |].
    rewrite !Parameters_push, Do, Dr, Rr.
    cbn [Vectorized.elements_ Vectorized.members]; rewrite <- app_assoc.
    repeat split; try reflexivity; discriminate.
  - do 2 eexists; split; [apply Parameters_push |].
    rewrite !Parameters_push, Drest, Rrest, Dr, Rr.
    cbn [Vectorized.elements_ Vectorized.members]; rewrite <- app_assoc.
    repeat split; try reflexivity; discriminate.
  - do 3 eexists; split; [apply Parameters_push |].
    rewrite !Parameters_push, Do, Drest, Rrest, Do'.
    split; [reflexivity |].
    split; [reflexivity |].
    split; [discriminate |].
    split; [reflexivity |].
    cbn [Vectorized.elements_ Vectorized.members]; rewrite <- !app_assoc.
    repeat split; try reflexivity; discriminate.
Qed.

(** C2 (what the code does). The constructor of [Argument] returns the
    argument it is asked for, also when it is given a name and the rest flag
    together; and pushing an argument onto any [Arguments] returns, with the
    argument added at the end and the flags updated, in whatever order the
    arguments come: no call leaves with an error. *)
Theorem Argument_new_and_push_return :
  (forall (p : string) (l : N) (val : option Expression.t) (n : string) (rest : bool),
      Argument.new p l val n rest
      = Returns (Argument.mk (AST_Node.new p l) val n rest))
  /\ (forall (args : Sass_Arguments.t) (a : Argument.t),
      exists args',
        Vectorized.push args a = Returns args'
        /\ Vectorized.elements_ args' = Vectorized.elements_ args ++ [a]
        /\ Sass_Arguments.has_named_arguments args'
           = Sass_Arguments.has_named_arguments args || Argument.is_named a
        /\ Sass_Arguments.has_rest_argument args'
           = Sass_Arguments.has_rest_argument args
             || (negb (Argument.is_named a) && Argument.is_rest_argument_ a)).
Proof.
  split.
  - apply Argument_new_returns.
  - intros args a; rewrite Arguments_push; eexists; split; [reflexivity |].
    unfold Sass_Arguments.has_named_arguments, Sass_Arguments.has_rest_argument.
    cbn [Vectorized.elements_ Vectorized.members].
    split; [reflexivity |].
    destruct (Argument.is_named a), (Argument.is_rest_argument_ a); simpl;
      rewrite ?orb_true_r, ?orb_false_r; split; reflexivity.
Qed.

(** C5 (what the code does). The constructor of [Parameter] returns the
    parameter it is asked for, whatever the default value and the rest flag:
    also with a default value and the rest flag together. *)
Theorem Parameter_new_returns_always :
  forall (p : string) (l : N) (n : string) (def : option Expression.t) (rest : bool),
    Sass_Parameter.new p l n def rest
    = Returns (Sass_Parameter.mk (AST_Node.new p l) n def rest).
Proof. intros; apply Parameter_new_returns. Qed.

(** C10. In both hooks the test of the default value, or of the name, comes
    first.  Pushing a parameter that has a default value and the rest flag
    returns, sets [has_optional_parameters_] and leaves [has_rest_parameter_]
    as it was; pushing an argument that has a name and the rest flag returns,
    sets [has_named_arguments_] and leaves [has_rest_argument_] as it was. *)
Theorem default_and_name_take_precedence_over_rest :
  forall (ps : Sass_Parameters.t) (p : Sass_Parameter.t)
         (args : Sass_Arguments.t) (a : Argument.t),
    Sass_Parameter.has_default_value p = true ->
    Sass_Parameter.is_rest_parameter_ p = true ->
    Argument.is_named a = true ->
    Argument.is_rest_argument_ a = true ->
    (exists ps',
        Vectorized.push ps p = Returns ps'
        /\ Vectorized.elements_ ps' = Vectorized.elements_ ps ++ [p]
        /\ Sass_Parameters.has_optional_parameters ps' = true
        /\ Sass_Parameters.has_rest_parameter ps'
           = Sass_Parameters.has_rest_parameter ps)
    /\ (exists args',
        Vectorized.push args a = Returns args'
        /\ Vectorized.elements_ args' = Vectorized.elements_ args ++ [a]
        /\ Sass_Arguments.has_named_arguments args' = true
        /\ Sass_Arguments.has_rest_argument args'
           = Sass_Arguments.has_rest_argument args).
Proof.
  intros ps p args a Dp Rp Na Ra; split.
  - rewrite Parameters_push, Dp; eexists; repeat split; reflexivity.
  - rewrite Arguments_push, Na; eexists; repeat split; reflexivity.
Qed.

(* ------------------------------------------------------------------------- *)
(** * Selectors *)

Lemma Sequence_push (S : Simple_Selector_Sequence.t) (x : Simple_Selector.t) :
  Vectorized.push S x
  = Returns (Vectorized.mk (Vectorized.elements_ S ++ [x])
               (Selector.mk (Selector.node (Vectorized.members S))
                  (Simple_Selector_Sequence.has_reference S
                   || Simple_Selector.has_reference x)
                  (Simple_Selector_Sequence.has_placeholder S
                   || Simple_Selector.has_placeholder x))).
Proof. reflexivity. Qed.

Lemma Sequence_hook_total : total_hook Simple_Selector_Sequence.adjust_after_pushing.
Proof. intros x this; eexists; reflexivity. Qed.

Lemma Sequence_push_all_flags (sels : list Simple_Selector.t) :
  forall S : Simple_Selector_Sequence.t,
    exists S',
      Vectorized.push_all S sels = Returns S'
      /\ Vectorized.elements_ S' = Vectorized.elements_ S ++ sels
      /\ Simple_Selector_Sequence.has_reference S'
         = Simple_Selector_Sequence.has_reference S
           || existsb Simple_Selector.has_reference sels
      /\ Simple_Selector_Sequence.has_placeholder S'
         = Simple_Selector_Sequence.has_placeholder S
           || existsb Simple_Selector.has_placeholder sels.
Proof.
  induction sels as [| x sels IH]; intros S.
  - exists S; simpl; rewrite app_nil_r, !orb_false_r; repeat split; reflexivity.
  - rewrite push_all_cons, Sequence_push; cbn [bind].
    match goal with
    | |- exists _, Vectorized.push_all ?y _ = _ /\ _ => destruct (IH y) as [S' [E1 [E2 [E3 E4]]]]
    end.
    exists S'; split; [exact E1 |].
    rewrite E2, E3, E4; simpl; rewrite <- app_assoc, !orb_assoc.
    repeat split; reflexivity.
Qed.

(** Pushing a combination onto a group reads the combination through its own
    readers; when both return, so does the push. *)
Lemma Group_push (G : Selector_Group.t) (c : Selector_Combination.t) (r h : bool) :
  Selector_Combination.has_reference c = Returns r ->
  Selector_Combination.has_placeholder c = Returns h ->
  Vectorized.push G c
  = Returns (Vectorized.mk (Vectorized.elements_ G ++ [c])
               (Selector_Group.mk (Selector_Group.base (Vectorized.members G))
                  (Selector_Group.has_reference G || r)
                  (Selector_Group.has_placeholder G || h))).
Proof.
  intros Hr Hh.
  unfold Vectorized.push, Vectorized.adjust_after_pushing,
    Selector_Group.adjust_after_pushing, Selector_Group.adjust_after_pushing_body, seq.
  rewrite Hr; cbn [bind]; rewrite Hh; reflexivity.
Qed.

Lemma Group_push_all_flags (cs : list Selector_Combination.t) :
  (forall c, In c cs ->
     exists r h, Selector_Combination.has_reference c = Returns r
                 /\ Selector_Combination.has_placeholder c = Returns h) ->
  forall G : Selector_Group.t,
    exists G',
      Vectorized.push_all G cs = Returns G'
      /\ Vectorized.elements_ G' = Vectorized.elements_ G ++ cs
      /\ Selector_Group.has_reference G'
         = Selector_Group.has_reference G
           || existsb (fun c => returns_true (Selector_Combination.has_reference c)) cs
      /\ Selector_Group.has_placeholder G'
         = Selector_Group.has_placeholder G
           || existsb (fun c => returns_true (Selector_Combination.has_placeholder c)) cs.
Proof.
  induction cs as [| c cs IH]; intros Hset G.
  - exists G; simpl; rewrite app_nil_r, !orb_false_r; repeat split; reflexivity.
  - destruct (Hset c (or_introl eq_refl)) as [r [h [Hr Hh]]].
    rewrite push_all_cons, (Group_push G c Hr Hh); cbn [bind].
    match goal with
    | |- exists _, Vectorized.push_all ?y _ = _ /\ _ =>
        destruct (IH (fun c' Hc' => Hset c' (or_intror Hc')) y) as [G' [E1 [E2 [E3 E4]]]]
    end.
    exists G'; split; [exact E1 |].
    rewrite E2, E3, E4; simpl; rewrite Hr, Hh; simpl.
    rewrite <- app_assoc, !orb_assoc.
    repeat split; reflexivity.
Qed.

(** C6 (what the code does). The chain ANCESTOR_OF(A, PARENT_OF(B, null)).
    The inner constructor returns a combination whose [head()] is B and whose
    [tail()] is null, and hands the flags of B to the inherited [Selector]
    part; the members [has_reference_] and [has_placeholder_] that
    [Selector_Combination] declares itself are given no value, so the readers
    of the class have nothing defined to return.  The outer constructor reads
    its tail through those readers: it has a defined result only when A
    already carries both flags and the tail is never read, and its own readers
    have nothing defined to return either. *)
Theorem Selector_Combination_chain :
  forall (p : string) (l : N) (p' : string) (l' : N)
         (A B : Simple_Selector_Sequence.t),
  exists inner,
    Selector_Combination.new p' l' Selector_Combination.PARENT_OF (Some B) None
    = Returns inner
    /\ Selector_Combination.head_ inner = Some B
    /\ Selector_Combination.tail_ inner = None
    /\ Selector.has_reference_ (Selector_Combination.base inner)
       = Simple_Selector_Sequence.has_reference B
    /\ Selector.has_placeholder_ (Selector_Combination.base inner)
       = Simple_Selector_Sequence.has_placeholder B
    /\ Selector_Combination.has_reference inner = Undefined
    /\ Selector_Combination.has_placeholder inner = Undefined
    /\ Selector_Combination.new p l Selector_Combination.ANCESTOR_OF (Some A) (Some inner)
       = (if Simple_Selector_Sequence.has_reference A
             && Simple_Selector_Sequence.has_placeholder A
          then Returns (Selector_Combination.mk (Selector.new p l true true)
                          Selector_Combination.ANCESTOR_OF (Some A) (Some inner)
                          indeterminate indeterminate)
          else Undefined).
Proof.
  intros p l p' l' A B.
  exists (Selector_Combination.mk
            (Selector.new p' l' (Simple_Selector_Sequence.has_reference B)
               (Simple_Selector_Sequence.has_placeholder B))
            Selector_Combination.PARENT_OF (Some B) None indeterminate indeterminate).
  split.
  - unfold Selector_Combination.new, or_else, and_then; cbn [bind].
    destruct (Simple_Selector_Sequence.has_reference B),
      (Simple_Selector_Sequence.has_placeholder B); reflexivity.
  - repeat (split; [reflexivity |]).
    unfold Selector_Combination.new, or_else, and_then; cbn [bind].
    unfold Selector_Combination.has_reference, Selector_Combination.has_placeholder.
    cbn [Selector_Combination.has_reference_ Selector_Combination.has_placeholder_ read].
    destruct (Simple_Selector_Sequence.has_reference A),
      (Simple_Selector_Sequence.has_placeholder A); reflexivity.
Qed.

(** C7 (as amended). A [Simple_Selector_Sequence] built by pushes has each
    flag equal to the OR of that flag over the simple selectors pushed onto it,
    as those carry it: [Selector_Reference] is constructed with
    [has_reference], [Selector_Placeholder] with [has_placeholder], every
    other simple selector, [Negated_Selector] included whatever it wraps, with
    neither.  So a sequence of a [Selector_Placeholder] and a [Type_Selector]
    has [has_placeholder] and not [has_reference].  A [Selector_Group] ORs in
    what the readers of each pushed combination return, when they return; a
    group with nothing pushed has neither flag. *)
Theorem selector_flags_of_pushed :
  forall (p : string) (l s : N),
    (forall sels : list Simple_Selector.t,
        exists S,
          Vectorized.push_all (Simple_Selector_Sequence.new p l s) sels = Returns S
          /\ Vectorized.elements_ S = sels
          /\ Simple_Selector_Sequence.has_reference S
             = existsb Simple_Selector.has_reference sels
          /\ Simple_Selector_Sequence.has_placeholder S
             = existsb Simple_Selector.has_placeholder sels)
    /\ (forall (q : string) (k : N) (n m v : string)
               (e : option Expression.t) (sel : option Simple_Selector.t),
           map (fun x => (Simple_Selector.has_reference x,
                          Simple_Selector.has_placeholder x))
             [Selector_Reference.new q k; Selector_Placeholder.new q k n;
              Type_Selector.new q k n; Selector_Qualifier.new q k n;
              Attribute_Selector.new q k n m v; Pseudo_Selector.new q k n e;
              Negated_Selector.new q k sel]
           = [(true, false); (false, true); (false, false); (false, false);
              (false, false); (false, false); (false, false)])
    /\ (forall (q : string) (k : N) (n m : string),
           exists S,
             Vectorized.push_all (Simple_Selector_Sequence.new p l s)
               [Selector_Placeholder.new q k n; Type_Selector.new q k m] = Returns S
             /\ Simple_Selector_Sequence.has_placeholder S = true
             /\ Simple_Selector_Sequence.has_reference S = false)
    /\ (Selector_Group.has_reference (Selector_Group.new p l s) = false
        /\ Selector_Group.has_placeholder (Selector_Group.new p l s) = false)
    /\ (forall cs : list Selector_Combination.t,
           (forall c, In c cs ->
              exists r h, Selector_Combination.has_reference c = Returns r
                          /\ Selector_Combination.has_placeholder c = Returns h) ->
           exists G,
             Vectorized.push_all (Selector_Group.new p l s) cs = Returns G
             /\ Vectorized.elements_ G = cs
             /\ Selector_Group.has_reference G
                = existsb (fun c => returns_true (Selector_Combination.has_reference c)) cs
             /\ Selector_Group.has_placeholder G
                = existsb (fun c => returns_true (Selector_Combination.has_placeholder c)) cs).
Proof.
  intros p l s.
  split; [| split; [| split; [| split]]].
  - intros sels.
    destruct (Sequence_push_all_flags sels (Simple_Selector_Sequence.new p l s))
      as [S [E1 [E2 [E3 E4]]]].
    exists S; repeat split; assumption.
  - intros; reflexivity.
  - intros q k n m.
    destruct (Sequence_push_all_flags
                [Selector_Placeholder.new q k n; Type_Selector.new q k m]
                (Simple_Selector_Sequence.new p l s)) as [S [E1 [_ [E3 E4]]]].
    exists S; repeat split; assumption.
  - split; reflexivity.
  - intros cs Hset.
    destruct (@Group_push_all_flags cs Hset (Selector_Group.new p l s))
      as [G [E1 [E2 [E3 E4]]]].
    exists G; repeat split; assumption.
Qed.

(* ------------------------------------------------------------------------- *)
(** * The properties at concrete inputs *)

(** An optional parameter followed by a required one, onto a new
    [Parameters]: both constructors and both pushes return, and the second
    push is not left with [ParameterOrderingViolation]. *)
Lemma Parameters_optional_then_required_returns :
  Sass_Parameter.new Example.file 1 "c" (Some Example.one) false
  = Returns Example.optional_c
  /\ Sass_Parameter.new Example.file 1 "a" None false = Returns Example.required_a
  /\ exists ps1 ps2,
      Vectorized.push (Sass_Parameters.new Example.file 1) Example.optional_c
      = Returns ps1
      /\ Vectorized.push ps1 Example.required_a = Returns ps2
      /\ Vectorized.elements_ ps2 = [Example.optional_c; Example.required_a]
      /\ Vectorized.push ps1 Example.required_a <> Raises ParameterOrderingViolation.
Proof.
  split; [reflexivity | split; [reflexivity |]].
  eexists; eexists.
  split; [reflexivity |].
  split; [reflexivity |].
  split; [reflexivity | discriminate].
Qed.

Lemma Parameters_accepted_orders_witness :
  (exists ps',
      Vectorized.push_all (Sass_Parameters.new Example.file 1)
        [Example.required_a; Example.required_b] = Returns ps'
      /\ Vectorized.elements_ ps' = [] ++ [Example.required_a; Example.required_b]
      /\ Sass_Parameters.has_optional_parameters ps' = false
      /\ Sass_Parameters.has_rest_parameter ps' = false)
  /\ (exists ps',
      Vectorized.push_all (Sass_Parameters.new Example.file 1)
        [Example.required_a; Example.optional_c] = Returns ps'
      /\ Vectorized.elements_ ps' = [] ++ [Example.required_a; Example.optional_c]
      /\ Sass_Parameters.has_optional_parameters ps' = true
      /\ Sass_Parameters.has_rest_parameter ps' = false)
  /\ (exists ps',
      Vectorized.push_all (Sass_Parameters.new Example.file 1)
        [Example.required_a; Example.optional_c; Example.rest_d] = Returns ps'
      /\ Vectorized.elements_ ps'
         = [] ++ [Example.required_a; Example.optional_c; Example.rest_d]
      /\ Sass_Parameters.has_optional_parameters ps' = true
      /\ Sass_Parameters.has_rest_parameter ps' = true).
Proof.
  exact (Parameters_accepted_orders (Sass_Parameters.new Example.file 1)
           Example.required_a Example.required_b Example.optional_c Example.rest_d
           eq_refl eq_refl eq_refl eq_refl eq_refl eq_refl eq_refl eq_refl).
Defined.

Lemma Parameters_marked_orders_return_witness :
  exists ps1 ps2,
    Vectorized.push (Sass_Parameters.new Example.file 1) Example.optional_c
    = Returns ps1
    /\ Vectorized.push ps1 Example.required_a = Returns ps2
    /\ Vectorized.push ps1 Example.required_a <> Raises ParameterOrderingViolation
    /\ Vectorized.elements_ ps2 = [Example.optional_c; Example.required_a].
Proof.
  destruct (@Parameters_marked_orders_return (Sass_Parameters.new Example.file 1)
              Example.required_a Example.optional_c Example.optional_c Example.rest_d
              eq_refl eq_refl eq_refl eq_refl eq_refl eq_refl eq_refl eq_refl)
    as [[ps1 [ps2 [E1 [_ [E2 [N [El _]]]]]]] _].
  exists ps1, ps2; split; [exact E1 | split; [exact E2 | split; [exact N | exact El]]].
Defined.

Lemma Block_push_flags_witness :
  exists b',
    Vectorized.push (Block.new Example.file 1 0 true) Example.declaration = Returns b'
    /\ Block.has_hoistable b' = false
    /\ Block.has_non_hoistable b' = false.
Proof.
  destruct (Block_push_flags (Block.new Example.file 1 0 true) Example.declaration)
    as [b' [E [_ [_ Hno]]]].
  destruct (Hno eq_refl) as [Hh Hn].
  exists b'; split; [exact E | split; [exact Hh | exact Hn]].
Defined.

Lemma Block_has_hoistable_iff_Ruleset_witness :
  (exists B,
      Vectorized.push_all (Block.new Example.file 1 0 true)
        [Example.declaration; Example.ruleset; Example.declaration] = Returns B
      /\ Block.has_hoistable B = true)
  /\ (exists B,
      Vectorized.push_all (Block.new Example.file 1 0 true)
        [Example.declaration; Example.declaration] = Returns B
      /\ Block.has_hoistable B = false).
Proof.
  split.
  - destruct (Block_has_hoistable_iff_Ruleset Example.file 1 0 true
                [Example.declaration; Example.ruleset; Example.declaration])
      as [B [E [_ [Hyes _]]]].
    exists B; split; [exact E |].
    apply Hyes; exists Example.ruleset; split; [simpl; auto | reflexivity].
  - destruct (Block_has_hoistable_iff_Ruleset Example.file 1 0 true
                [Example.declaration; Example.declaration])
      as [B [E [_ [_ [Hno _]]]]].
    exists B; split; [exact E |].
    apply Hno; intros x [<- | [<- | []]]; reflexivity.
Defined.

(** C7, as stated, fails: the sequence holding [:not(%foo)] alone.  A
    placeholder is among the simple selectors it contains, and its
    [has_placeholder] is false. *)
Lemma Sequence_misses_negated_placeholder :
  exists S,
    Vectorized.push_all (Simple_Selector_Sequence.new Example.file 1 0)
      [Example.not_placeholder] = Returns S
    /\ existsb Simple_Selector.has_placeholder
         (flat_map Simple_Selector.contained (Vectorized.elements_ S)) = true
    /\ Simple_Selector_Sequence.has_placeholder S = false.
Proof. eexists; repeat split; reflexivity. Qed.

Lemma selector_flags_of_pushed_witness :
  exists G,
    Vectorized.push_all (Selector_Group.new Example.file 1 0)
      [Example.assigned_combination] = Returns G
    /\ Selector_Group.has_reference G = true
    /\ Selector_Group.has_placeholder G = false.
Proof.
  destruct (selector_flags_of_pushed Example.file 1 0) as [_ [_ [_ [_ Hgroup]]]].
  destruct (Hgroup [Example.assigned_combination]) as [G [E [_ [Hr Hp]]]].
  - intros c [<- | []]; exists true, false; split; reflexivity.
  - exists G; split; [exact E | split; [exact Hr | exact Hp]].
Defined.

Lemma Vectorized_plus_eq_is_push_each_witness :
  exists A',
    Vectorized.plus_eq (H := Vectorized.traced Block.adjust_after_pushing)
      Example.traced_block
      (Vectorized.Other
         (Vectorized.mk [Example.ruleset; Example.declaration; Example.ruleset]
            (Statement.mk_Block Example.here true true false, [])))
    = Returns A'
    /\ Vectorized.elements_ A'
       = [Example.declaration; Example.ruleset; Example.declaration; Example.ruleset]
    /\ Vectorized.calls A'
       = [(Example.declaration, 1); (Example.ruleset, 2); (Example.declaration, 3);
          (Example.ruleset, 4)].
Proof.
  destruct (Vectorized_plus_eq_is_push_each Block.adjust_after_pushing)
    as [_ [_ Hcalls]].
  destruct (Hcalls Block_hook_total Example.traced_block
              (Vectorized.mk [Example.ruleset; Example.declaration; Example.ruleset]
                 (Statement.mk_Block Example.here true true false, [])))
    as [Hother _].
  exact Hother.
Defined.

(** C9, as stated, fails: the list holding one expression, read at index 1.
    The access is not left with [IndexOutOfRange]. *)
Lemma index_past_the_end_raises_nothing :
  exists S,
    Vectorized.push_all (Sass_List.new Example.file 1 0 Sass_List.space false)
      [Example.one] = Returns S
    /\ Vectorized.length S = 1
    /\ Vectorized.index S 1 = Undefined
    /\ Vectorized.index S 1 <> Raises IndexOutOfRange.
Proof. eexists; repeat split; try reflexivity; discriminate. Qed.

Lemma List_hook_total : total_hook Sass_List.adjust_after_pushing.
Proof. intros e this; eexists; reflexivity. Qed.

Lemma Vectorized_index_of_pushed_witness :
  exists S,
    Vectorized.push_all (Sass_List.new Example.file 1 0 Sass_List.comma false)
      [Example.one; Example.one] = Returns S
    /\ Vectorized.length S = 2
    /\ Vectorized.index S 1 = Returns Example.one
    /\ Vectorized.index S 2 = Undefined.
Proof.
  destruct (Vectorized_index_of_pushed List_hook_total 0
              (Vectorized.members (Sass_List.new Example.file 1 0 Sass_List.comma false))
              [Example.one; Example.one]) as [S [E [Hlen [_ [Hin Hout]]]]].
  exists S; split; [exact E | split; [exact Hlen | split]].
  - destruct (Hin 1) as [e [He Hi]]; [simpl; lia |].
    injection He as <-; exact Hi.
  - apply Hout; simpl; lia.
Defined.

Lemma default_and_name_take_precedence_over_rest_witness :
  (exists ps',
      Vectorized.push (Sass_Parameters.new Example.file 1) Example.default_and_rest
      = Returns ps'
      /\ Vectorized.elements_ ps' = [] ++ [Example.default_and_rest]
      /\ Sass_Parameters.has_optional_parameters ps' = true
      /\ Sass_Parameters.has_rest_parameter ps' = false)
  /\ (exists args',
      Vectorized.push (Sass_Arguments.new Example.file 1) Example.name_and_rest
      = Returns args'
      /\ Vectorized.elements_ args' = [] ++ [Example.name_and_rest]
      /\ Sass_Arguments.has_named_arguments args' = true
      /\ Sass_Arguments.has_rest_argument args' = false).
Proof.
  exact (default_and_name_take_precedence_over_rest
           (Sass_Parameters.new Example.file 1) Example.default_and_rest
           (Sass_Arguments.new Example.file 1) Example.name_and_rest
           eq_refl eq_refl eq_refl eq_refl).
Defined.

(** A named argument followed by a positional one, and an argument built
    with a name and the rest flag: every call returns. *)
Example Arguments_named_then_positional :
  Argument.new Example.file 1 (Some Example.one) "x" true
  = Returns Example.name_and_rest
  /\ Vectorized.push_all (Sass_Arguments.new Example.file 1)
       [Example.named_x; Example.positional]
     = Returns (Vectorized.mk [Example.named_x; Example.positional]
                  (Sass_Arguments.mk Example.here true false))
  /\ Vectorized.push_all (Sass_Arguments.new Example.file 1)
       [Example.rest_argument; Example.positional]
     = Returns (Vectorized.mk [Example.rest_argument; Example.positional]
                  (Sass_Arguments.mk Example.here false true)).
Proof. repeat split; reflexivity. Qed.

(** A parameter built with a default value and the rest flag. *)
Example Parameter_with_default_and_rest :
  Sass_Parameter.new Example.file 1 "e" (Some Example.one) true
  = Returns Example.default_and_rest.
Proof. reflexivity. Qed.

(** The chain ANCESTOR_OF(A, PARENT_OF(B, null)) with A empty and B holding
    a parent reference: B's flag reaches the inherited part of the inner
    combination, the inner reader has nothing defined to return, and the outer
    constructor, which calls it, has no defined result. *)
Example Selector_Combination_chain_with_reference :
  exists B inner,
    Vectorized.push (Simple_Selector_Sequence.new Example.file 1 0)
      (Selector_Reference.new Example.file 1) = Returns B
    /\ Simple_Selector_Sequence.has_reference B = true
    /\ Selector_Combination.new Example.file 1 Selector_Combination.PARENT_OF
         (Some B) None = Returns inner
    /\ Selector.has_reference_ (Selector_Combination.base inner) = true
    /\ Selector_Combination.has_reference inner = Undefined
    /\ Selector_Combination.new Example.file 1 Selector_Combination.ANCESTOR_OF
         (Some (Simple_Selector_Sequence.new Example.file 1 0)) (Some inner)
       = Undefined.
Proof. eexists; eexists; repeat split; reflexivity. Qed.

(* ------------------------------------------------------------------------- *)
(** * Further properties of Vectorized<T> *)

Section VectorizedGrowth.
Context {T D : Type} {H : Vectorized.Hook T D}.

Lemma push_all_app (xs ys : list T) :
  forall A : Vectorized.t T D,
    Vectorized.push_all A (xs ++ ys)
    = (A' <- Vectorized.push_all A xs ;; Vectorized.push_all A' ys).
Proof.
  induction xs as [| x xs IH]; intros A.
  - reflexivity.
  - rewrite <- app_comm_cons, !push_all_cons.
    destruct (Vectorized.push A x) as [A1 | e | ]; cbn [bind];
      [apply IH | reflexivity | reflexivity].
Qed.

Lemma push_all_elements (es : list T) :
  forall A A' : Vectorized.t T D,
    Vectorized.push_all A es = Returns A' ->
    Vectorized.elements_ A' = Vectorized.elements_ A ++ es.
Proof.
  induction es as [| e es IH]; intros A A' E.
  - injection E as <-; rewrite app_nil_r; reflexivity.
  - rewrite push_all_cons in E.
    apply bind_Returns in E; destruct E as [A1 [E1 E2]].
    rewrite (IH _ _ E2), (push_elements _ _ E1), <- app_assoc; reflexivity.
Qed.

End VectorizedGrowth.

Lemma replace_at_length {T : Type} (l : list T) (x : T) :
  forall i, List.length (Vectorized.replace_at l i x) = List.length l.
Proof.
  induction l as [| y l IH]; intros [| i]; simpl; try reflexivity.
  rewrite IH; reflexivity.
Qed.

Lemma replace_at_same {T : Type} (l : list T) (x : T) :
  forall i, i < List.length l -> nth_error (Vectorized.replace_at l i x) i = Some x.
Proof.
  induction l as [| y l IH]; intros [| i] Hi; simpl in *; try lia.
  - reflexivity.
  - apply IH; lia.
Qed.

Lemma replace_at_other {T : Type} (l : list T) (x : T) :
  forall i j, j <> i -> nth_error (Vectorized.replace_at l i x) j = nth_error l j.
Proof.
  induction l as [| y l IH]; intros [| i] [| j] Hij; simpl; try reflexivity.
  - exfalso; apply Hij; reflexivity.
  - apply IH; intros ->; apply Hij; reflexivity.
Qed.

(** X1. With a hook that returns, [operator<<] returns; the sequence is one
    longer and not empty, the new element is at the old length, every index
    below keeps its element and every index above is still past the end. *)
Theorem push_adds_one_at_the_end :
  forall (T D : Type) (H : Vectorized.Hook T D),
    total_hook H ->
    forall (this : Vectorized.t T D) (e : T),
    exists this',
      Vectorized.push this e = Returns this'
      /\ Vectorized.length this' = S (Vectorized.length this)
      /\ Vectorized.empty this' = false
      /\ Vectorized.index this' (Vectorized.length this) = Returns e
      /\ (forall i, i < Vectorized.length this ->
            Vectorized.index this' i = Vectorized.index this i)
      /\ (forall i, S (Vectorized.length this) <= i ->
            Vectorized.index this' i = Undefined).
Proof.
  intros T D H Htot this e.
  destruct (push_all_total Htot [e] this) as [this' [E1 E2]].
  rewrite push_all_cons in E1.
  destruct (Vectorized.push this e) as [this1 | x | ]; try discriminate.
  cbn [bind] in E1; rewrite push_all_nil in E1; injection E1 as ->.
  exists this'; split; [reflexivity |].
  unfold Vectorized.length, Vectorized.empty, Vectorized.index; rewrite E2.
  repeat split.
  - rewrite length_app; simpl; lia.
  - destruct (Vectorized.elements_ this); reflexivity.
  - rewrite nth_error_app2, Nat.sub_diag by lia; reflexivity.
  - intros i Hi; rewrite nth_error_app1 by exact Hi; reflexivity.
  - intros i Hi.
    destruct (nth_error (Vectorized.elements_ this ++ [e]) i) eqn:E; [| reflexivity].
    assert (i < List.length (Vectorized.elements_ this ++ [e]))
      by (apply nth_error_Some; congruence).
    rewrite length_app in *; simpl in *; lia.
Qed.

(** X2. Pushing a concatenation is pushing its two parts one after the other,
    and two [operator+=] in a row with other sequences B and C push the
    elements of B followed by those of C, with the same failure if a hook
    fails on the way. *)
Theorem push_all_and_plus_eq_compose :
  forall (T D : Type) (H : Vectorized.Hook T D),
    (forall (A : Vectorized.t T D) (xs ys : list T),
        Vectorized.push_all A (xs ++ ys)
        = (A' <- Vectorized.push_all A xs ;; Vectorized.push_all A' ys))
    /\ (forall A B C : Vectorized.t T D,
        (A' <- Vectorized.plus_eq A (Vectorized.Other B) ;;
         Vectorized.plus_eq A' (Vectorized.Other C))
        = Vectorized.push_all A (Vectorized.elements_ B ++ Vectorized.elements_ C)).
Proof.
  intros T D H; split.
  - intros A xs ys; apply push_all_app.
  - intros A B C.
    rewrite push_all_app, plus_eq_push_all; cbn [Vectorized.deref].
    destruct (Vectorized.push_all A (Vectorized.elements_ B)) as [A' | e | ];
      cbn [bind]; [apply plus_eq_push_all | reflexivity | reflexivity].
Qed.

(** X3. [operator+=] applied to the sequence itself stops: with a hook that
    returns, it returns the sequence with its former elements twice, at twice
    the length. *)
Theorem plus_eq_self_doubles :
  forall (T D : Type) (H : Vectorized.Hook T D),
    total_hook H ->
    forall A : Vectorized.t T D,
    exists A',
      Vectorized.plus_eq A Vectorized.Self = Returns A'
      /\ Vectorized.elements_ A' = Vectorized.elements_ A ++ Vectorized.elements_ A
      /\ Vectorized.length A' = 2 * Vectorized.length A.
Proof.
  intros T D H Htot A.
  rewrite plus_eq_push_all; cbn [Vectorized.deref].
  destruct (push_all_total Htot (Vectorized.elements_ A) A) as [A' [E1 E2]].
  exists A'; split; [exact E1 | split; [exact E2 |]].
  unfold Vectorized.length; rewrite E2, length_app; lia.
Qed.

(** X4. [operator+=] with an empty sequence changes nothing and does not call
    the hook: it returns [*this] as it was, whatever the hook would do. *)
Theorem plus_eq_empty_is_identity :
  forall (T D : Type) (H : Vectorized.Hook T D)
         (A : Vectorized.t T D) (v : Vectorized.operand),
    Vectorized.empty (Vectorized.deref v A) = true ->
    Vectorized.plus_eq A v = Returns A.
Proof.
  intros T D H A v He.
  rewrite plus_eq_push_all.
  unfold Vectorized.empty in He.
  destruct (Vectorized.elements_ (Vectorized.deref v A)); [reflexivity | discriminate].
Qed.

(** X5. Whatever the hook, when [operator+=] returns, the sequence has its
    former elements, at their former indices, followed by the elements the
    operand had on entry; nothing is removed or reordered. *)
Theorem plus_eq_only_grows :
  forall (T D : Type) (H : Vectorized.Hook T D)
         (A A' : Vectorized.t T D) (v : Vectorized.operand),
    Vectorized.plus_eq A v = Returns A' ->
    Vectorized.elements_ A'
    = Vectorized.elements_ A ++ Vectorized.elements_ (Vectorized.deref v A)
    /\ Vectorized.length A'
       = Vectorized.length A + Vectorized.length (Vectorized.deref v A)
    /\ (forall i, i < Vectorized.length A ->
          Vectorized.index A' i = Vectorized.index A i).
Proof.
  intros T D H A A' v E.
  rewrite plus_eq_push_all in E; apply push_all_elements in E.
  unfold Vectorized.length, Vectorized.index; rewrite E.
  repeat split.
  - apply length_app.
  - intros i Hi; rewrite nth_error_app1 by exact Hi; reflexivity.
Qed.

(** X6. Assigning through the reference [operator[]] returns, at an index
    below the length: the element is replaced, it is the one read back, the
    other indices, the length and the members of the owning class (its derived
    flags) are as before, the hook not being called.  At an index from the
    length on there is no defined result. *)
Theorem assign_at_replaces_one_element :
  forall (T D : Type) (this : Vectorized.t T D) (i : nat) (x : T),
    (i < List.length (Vectorized.elements_ this) ->
     exists this',
       Vectorized.assign_at this i x = Returns this'
       /\ Vectorized.members this' = Vectorized.members this
       /\ Vectorized.length this' = Vectorized.length this
       /\ Vectorized.index this' i = Returns x
       /\ (forall j, j <> i -> Vectorized.index this' j = Vectorized.index this j))
    /\ (List.length (Vectorized.elements_ this) <= i ->
        Vectorized.assign_at this i x = Undefined).
Proof.
  intros T D this i x; unfold Vectorized.assign_at; split; intros Hi.
  - apply Nat.ltb_lt in Hi as Hb; rewrite Hb.
    eexists; split; [reflexivity |].
    unfold Vectorized.length, Vectorized.index.
    cbn [Vectorized.elements_ Vectorized.members].
    repeat split.
    + apply replace_at_length.
    + rewrite replace_at_same by exact Hi; reflexivity.
    + intros j Hj; rewrite replace_at_other by exact Hj; reflexivity.
  - apply Nat.ltb_ge in Hi; rewrite Hi; reflexivity.
Qed.

(* ------------------------------------------------------------------------- *)
(** * Further properties of blocks *)

Lemma Block_push_all_members (stmts : list Statement.t) :
  forall b : Block.t,
    Vectorized.push_all b stmts
    = Returns (Vectorized.mk (Vectorized.elements_ b ++ stmts)
                 (Statement.mk_Block
                    (Statement.Block_node (Vectorized.members b))
                    (Statement.is_root_ (Vectorized.members b))
                    (Block.has_hoistable b || existsb Statement.is_hoistable stmts)
                    (Block.has_non_hoistable b
                     && forallb Statement.is_hoistable stmts))).
Proof.
  induction stmts as [| x stmts IH]; intros b.
  - rewrite push_all_nil, app_nil_r; simpl; rewrite orb_false_r, andb_true_r.
    destruct b as [es [n r hh hnh]]; reflexivity.
  - rewrite push_all_cons, Block_push; cbn [bind]; rewrite IH.
    unfold Block.has_hoistable, Block.has_non_hoistable; simpl.
    rewrite <- app_assoc; simpl.
    destruct (Statement.is_hoistable x); simpl;
      rewrite ?orb_true_r, ?andb_false_r; reflexivity.
Qed.

Lemma Block_new_push_all (p : string) (l s : N) (r : bool) (stmts : list Statement.t) :
  Vectorized.push_all (Block.new p l s r) stmts
  = Returns (Vectorized.mk stmts
               (Statement.mk_Block (AST_Node.new p l) r
                  (existsb Statement.is_hoistable stmts) false)).
Proof. rewrite Block_push_all_members; reflexivity. Qed.

(** X7. The flags of a block follow [operator<<] only.  In a block built by
    pushing statements none of which is hoistable, assigning a [Ruleset]
    through [operator[]] returns a block that holds the ruleset and whose
    [has_hoistable] is still false. *)
Theorem Block_assign_at_leaves_has_hoistable :
  forall (p : string) (l s : N) (r : bool) (stmts : list Statement.t)
         (i : nat) (x : Statement.t),
    (forall y, In y stmts -> Statement.is_hoistable y = false) ->
    i < List.length stmts ->
    Statement.is_Ruleset x = true ->
    exists B B',
      Vectorized.push_all (Block.new p l s r) stmts = Returns B
      /\ Vectorized.assign_at B i x = Returns B'
      /\ Vectorized.index B' i = Returns x
      /\ In x (Vectorized.elements_ B')
      /\ Block.has_hoistable B' = false.
Proof.
  intros p l s r stmts i x Hno Hi Hx.
  rewrite Block_new_push_all; eexists; eexists; split; [reflexivity |].
  unfold Vectorized.assign_at; cbn [Vectorized.elements_ Vectorized.members].
  apply Nat.ltb_lt in Hi as Hb; rewrite Hb.
  split; [reflexivity |].
  unfold Vectorized.index, Block.has_hoistable.
  cbn [Vectorized.elements_ Vectorized.members Statement.has_hoistable_].
  rewrite replace_at_same by exact Hi.
  split; [reflexivity | split].
  - apply (nth_error_In _ i), replace_at_same; exact Hi.
  - destruct (existsb Statement.is_hoistable stmts) eqn:E; [| reflexivity].
    apply existsb_exists in E; destruct E as [y [Hin Hy]].
    rewrite (Hno y Hin) in Hy; discriminate.
Qed.

(** X8. A block built by pushing statements onto a new block keeps the path,
    line and [is_root] it was constructed with; its [has_hoistable] tells
    whether a [Ruleset] is among the statements, and its [has_non_hoistable]
    is false whatever they are. *)
Theorem Block_built_by_pushes :
  forall (p : string) (l s : N) (r : bool) (stmts : list Statement.t),
    Vectorized.push_all (Block.new p l s r) stmts
    = Returns (Vectorized.mk stmts
                 (Statement.mk_Block (AST_Node.new p l) r
                    (existsb Statement.is_Ruleset stmts) false)).
Proof.
  intros p l s r stmts; apply Block_new_push_all.
Qed.

(** X9. Extending any block A by a block B that was built by pushes returns
    A with the statements of B after its own, and its [has_hoistable] is the
    OR of the two blocks' [has_hoistable]. *)
Theorem Block_plus_eq_flags :
  forall (A : Block.t) (p : string) (l s : N) (r : bool) (stmts : list Statement.t),
  exists B A',
    Vectorized.push_all (Block.new p l s r) stmts = Returns B
    /\ Vectorized.plus_eq A (Vectorized.Other B) = Returns A'
    /\ Vectorized.elements_ A' = Vectorized.elements_ A ++ Vectorized.elements_ B
    /\ Block.has_hoistable A' = Block.has_hoistable A || Block.has_hoistable B.
Proof.
  intros A p l s r stmts.
  rewrite Block_new_push_all; eexists; eexists; split; [reflexivity |].
  rewrite plus_eq_push_all; cbn [Vectorized.deref Vectorized.elements_].
  rewrite Block_push_all_members; split; [reflexivity |].
  split; reflexivity.
Qed.

(* ------------------------------------------------------------------------- *)
(** * Further properties of parameters and arguments *)

Lemma existsb_Permutation {A : Type} (f : A -> bool) (l l' : list A) :
  Permutation l l' -> existsb f l = existsb f l'.
Proof.
  induction 1 as [| x l l' _ IH | x y l | l l' l'' _ IH1 _ IH2]; simpl.
  - reflexivity.
  - rewrite IH; reflexivity.
  - destruct (f x), (f y); reflexivity.
  - rewrite IH1; exact IH2.
Qed.

Lemma Parameters_push_all_members (l : list Sass_Parameter.t) :
  forall ps : Sass_Parameters.t,
    Vectorized.push_all ps l
    = Returns (Vectorized.mk (Vectorized.elements_ ps ++ l)
                 (Sass_Parameters.mk
                    (Sass_Parameters.node (Vectorized.members ps))
                    (Sass_Parameters.has_optional_parameters ps
                     || existsb Sass_Parameter.has_default_value l)
                    (Sass_Parameters.has_rest_parameter ps
                     || existsb (fun p => negb (Sass_Parameter.has_default_value p)
                                          && Sass_Parameter.is_rest_parameter_ p) l))).
Proof.
  induction l as [| x l IH]; intros ps.
  - rewrite push_all_nil, app_nil_r; simpl; rewrite !orb_false_r.
    destruct ps as [es [n o r]]; reflexivity.
  - rewrite push_all_cons, Parameters_push; cbn [bind]; rewrite IH.
    unfold Sass_Parameters.has_optional_parameters, Sass_Parameters.has_rest_parameter.
    simpl; rewrite <- app_assoc; simpl.
    destruct (Sass_Parameter.has_default_value x),
      (Sass_Parameter.is_rest_parameter_ x); simpl;
      rewrite ?orb_true_r, ?orb_false_r; reflexivity.
Qed.

Lemma Arguments_push_all_members (l : list Argument.t) :
  forall args : Sass_Arguments.t,
    Vectorized.push_all args l
    = Returns (Vectorized.mk (Vectorized.elements_ args ++ l)
                 (Sass_Arguments.mk
                    (Sass_Arguments.node (Vectorized.members args))
                    (Sass_Arguments.has_named_arguments args
                     || existsb Argument.is_named l)
                    (Sass_Arguments.has_rest_argument args
                     || existsb (fun a => negb (Argument.is_named a)
                                          && Argument.is_rest_argument_ a) l))).
Proof.
  induction l as [| x l IH]; intros args.
  - rewrite push_all_nil, app_nil_r; simpl; rewrite !orb_false_r.
    destruct args as [es [n o r]]; reflexivity.
  - rewrite push_all_cons, Arguments_push; cbn [bind]; rewrite IH.
    unfold Sass_Arguments.has_named_arguments, Sass_Arguments.has_rest_argument.
    simpl; rewrite <- app_assoc; simpl.
    destruct (Argument.is_named x), (Argument.is_rest_argument_ x); simpl;
      rewrite ?orb_true_r, ?orb_false_r; reflexivity.
Qed.

(** X10. Pushing any list of parameters onto any [Parameters] returns, with
    the parameters added at the end.  Afterwards [has_optional_parameters]
    holds when it held before or one of them has a default value, and
    [has_rest_parameter] when it held before or one of them has the rest flag
    and no default value: a flag that is set is never cleared. *)
Theorem Parameters_flags_after_pushes :
  forall (ps : Sass_Parameters.t) (l : list Sass_Parameter.t),
  exists ps',
    Vectorized.push_all ps l = Returns ps'
    /\ Vectorized.elements_ ps' = Vectorized.elements_ ps ++ l
    /\ Sass_Parameters.has_optional_parameters ps'
       = Sass_Parameters.has_optional_parameters ps
         || existsb Sass_Parameter.has_default_value l
    /\ Sass_Parameters.has_rest_parameter ps'
       = Sass_Parameters.has_rest_parameter ps
         || existsb (fun p => negb (Sass_Parameter.has_default_value p)
                              && Sass_Parameter.is_rest_parameter_ p) l.
Proof.
  intros ps l; rewrite Parameters_push_all_members.
  eexists; repeat split; reflexivity.
Qed.

(** X11. Pushing any list of arguments onto any [Arguments] returns, with the
    arguments added at the end.  Afterwards [has_named_arguments] holds when
    it held before or one of them has a name, and [has_rest_argument] when it
    held before or one of them has the rest flag and no name: a flag that is
    set is never cleared. *)
Theorem Arguments_flags_after_pushes :
  forall (args : Sass_Arguments.t) (l : list Argument.t),
  exists args',
    Vectorized.push_all args l = Returns args'
    /\ Vectorized.elements_ args' = Vectorized.elements_ args ++ l
    /\ Sass_Arguments.has_named_arguments args'
       = Sass_Arguments.has_named_arguments args || existsb Argument.is_named l
    /\ Sass_Arguments.has_rest_argument args'
       = Sass_Arguments.has_rest_argument args
         || existsb (fun a => negb (Argument.is_named a)
                              && Argument.is_rest_argument_ a) l.
Proof.
  intros args l; rewrite Arguments_push_all_members.
  eexists; repeat split; reflexivity.
Qed.

(** X12. The members of a [Parameters] or an [Arguments] after a series of
    pushes do not depend on the order of the pushes: two lists with the same
    elements in different orders leave the same path, line and flags. *)
Theorem flags_do_not_record_order :
  forall (ps : Sass_Parameters.t) (l l' : list Sass_Parameter.t)
         (args : Sass_Arguments.t) (k k' : list Argument.t),
    Permutation l l' ->
    Permutation k k' ->
    (exists ps1 ps2,
        Vectorized.push_all ps l = Returns ps1
        /\ Vectorized.push_all ps l' = Returns ps2
        /\ Vectorized.members ps1 = Vectorized.members ps2)
    /\ (exists args1 args2,
        Vectorized.push_all args k = Returns args1
        /\ Vectorized.push_all args k' = Returns args2
        /\ Vectorized.members args1 = Vectorized.members args2).
Proof.
  intros ps l l' args k k' Hl Hk; split.
  - rewrite !Parameters_push_all_members.
    eexists; eexists; split; [reflexivity | split; [reflexivity |]].
    cbn [Vectorized.members].
    rewrite (existsb_Permutation Sass_Parameter.has_default_value Hl).
    rewrite (existsb_Permutation _ Hl); reflexivity.
  - rewrite !Arguments_push_all_members.
    eexists; eexists; split; [reflexivity | split; [reflexivity |]].
    cbn [Vectorized.members].
    rewrite (existsb_Permutation Argument.is_named Hk).
    rewrite (existsb_Permutation _ Hk); reflexivity.
Qed.

(* ------------------------------------------------------------------------- *)
(** * Further properties of selectors *)

Lemma Sequence_push_all_members (sels : list Simple_Selector.t) :
  forall S : Simple_Selector_Sequence.t,
    Vectorized.push_all S sels
    = Returns (Vectorized.mk (Vectorized.elements_ S ++ sels)
                 (Selector.mk (Selector.node (Vectorized.members S))
                    (Simple_Selector_Sequence.has_reference S
                     || existsb Simple_Selector.has_reference sels)
                    (Simple_Selector_Sequence.has_placeholder S
                     || existsb Simple_Selector.has_placeholder sels))).
Proof.
  induction sels as [| x sels IH]; intros S.
  - rewrite push_all_nil, app_nil_r; simpl; rewrite !orb_false_r.
    destruct S as [es [n r h]]; reflexivity.
  - rewrite push_all_cons, Sequence_push; cbn [bind]; rewrite IH.
    unfold Simple_Selector_Sequence.has_reference,
      Simple_Selector_Sequence.has_placeholder.
    simpl; rewrite <- app_assoc, !orb_assoc; reflexivity.
Qed.

Lemma Combination_new_members (p : string) (l : N)
    (c : Selector_Combination.Combinator)
    (h : option Simple_Selector_Sequence.t) (t' : option Selector_Combination.t)
    (comb : Selector_Combination.t) :
  Selector_Combination.new p l c h t' = Returns comb ->
  Selector_Combination.has_reference_ comb = indeterminate
  /\ Selector_Combination.has_placeholder_ comb = indeterminate
  /\ Selector_Combination.combinator_ comb = c
  /\ Selector_Combination.head_ comb = h
  /\ Selector_Combination.tail_ comb = t'.
Proof.
  unfold Selector_Combination.new; intros E.
  apply bind_Returns in E; destruct E as [r [_ E]].
  apply bind_Returns in E; destruct E as [pl [_ E]].
  injection E as <-; repeat split; reflexivity.
Qed.

Lemma Group_push_base (G G' : Selector_Group.t) (c : Selector_Combination.t) :
  Vectorized.push G c = Returns G' ->
  Selector_Group.base (Vectorized.members G')
  = Selector_Group.base (Vectorized.members G).
Proof.
  unfold Vectorized.push, Vectorized.adjust_after_pushing,
    Selector_Group.adjust_after_pushing, Selector_Group.adjust_after_pushing_body, seq.
  cbn [Vectorized.members Vectorized.elements_].
  intros E.
  apply bind_Returns in E; destruct E as [d [E1 E2]]; injection E2 as <-.
  apply bind_Returns in E1; destruct E1 as [d1 [E1 E3]].
  apply bind_Returns in E1; destruct E1 as [r [_ E1]]; injection E1 as <-.
  apply bind_Returns in E3; destruct E3 as [h [_ E3]]; injection E3 as <-.
  reflexivity.
Qed.

(** X13. Extending any sequence A by a sequence B that was built by pushes
    returns A with the simple selectors of B after its own, and each of its
    flags is the OR of that flag of A and of B. *)
Theorem Sequence_plus_eq_flags :
  forall (A : Simple_Selector_Sequence.t) (p : string) (l s : N)
         (sels : list Simple_Selector.t),
  exists B A',
    Vectorized.push_all (Simple_Selector_Sequence.new p l s) sels = Returns B
    /\ Vectorized.plus_eq A (Vectorized.Other B) = Returns A'
    /\ Vectorized.elements_ A' = Vectorized.elements_ A ++ Vectorized.elements_ B
    /\ Simple_Selector_Sequence.has_reference A'
       = Simple_Selector_Sequence.has_reference A
         || Simple_Selector_Sequence.has_reference B
    /\ Simple_Selector_Sequence.has_placeholder A'
       = Simple_Selector_Sequence.has_placeholder A
         || Simple_Selector_Sequence.has_placeholder B.
Proof.
  intros A p l s sels.
  rewrite Sequence_push_all_members; eexists; eexists; split; [reflexivity |].
  rewrite plus_eq_push_all; cbn [Vectorized.deref Vectorized.elements_].
  rewrite Sequence_push_all_members; split; [reflexivity |].
  repeat split; reflexivity.
Qed.

(** X14. The constructor of [Selector_Combination] returns when its tail is
    null or has had both of its own flags assigned.  The flags it hands to the
    inherited [Selector] part are then the OR of the head's flags (false for a
    null head) and the tail's (false for a null tail); the combinator, head
    and tail are stored as given, and the two members the class declares
    itself are left without a value. *)
Theorem Selector_Combination_new_with_readable_tail :
  forall (p : string) (l : N) (c : Selector_Combination.Combinator)
         (h : option Simple_Selector_Sequence.t)
         (t' : option Selector_Combination.t) (tr tp : bool),
    match t' with
    | None => tr = false /\ tp = false
    | Some tl => Selector_Combination.has_reference tl = Returns tr
                 /\ Selector_Combination.has_placeholder tl = Returns tp
    end ->
    Selector_Combination.new p l c h t'
    = Returns (Selector_Combination.mk
                 (Selector.new p l
                    (match h with
                     | Some s => Simple_Selector_Sequence.has_reference s
                     | None => false
                     end || tr)
                    (match h with
                     | Some s => Simple_Selector_Sequence.has_placeholder s
                     | None => false
                     end || tp))
                 c h t' indeterminate indeterminate).
Proof.
  intros p l c h t' tr tp Ht.
  unfold Selector_Combination.new, or_else, and_then.
  destruct t' as [tl |]; [destruct Ht as [Hr Hp]; rewrite Hr, Hp
                         | destruct Ht as [-> ->]];
    destruct h as [s |]; cbn [bind];
    try (destruct (Simple_Selector_Sequence.has_reference s),
           (Simple_Selector_Sequence.has_placeholder s));
    try (destruct tr, tp); reflexivity.
Qed.

(** X15. A combination as its constructor returns it cannot be pushed onto a
    group: the hook reads its two flags, which have no value, so the push, and
    any series of pushes that starts with it, has no defined result.  Once
    both flags have been assigned through the writers, the push returns, adds
    the combination and ORs the assigned flags into the group's. *)
Theorem Group_push_needs_assigned_flags :
  forall (p : string) (l : N) (c : Selector_Combination.Combinator)
         (h : option Simple_Selector_Sequence.t)
         (t' : option Selector_Combination.t) (comb : Selector_Combination.t),
    Selector_Combination.new p l c h t' = Returns comb ->
    (forall G : Selector_Group.t, Vectorized.push G comb = Undefined)
    /\ (forall (G : Selector_Group.t) (rest : list Selector_Combination.t),
           Vectorized.push_all G (comb :: rest) = Undefined)
    /\ (forall (G : Selector_Group.t) (r b : bool),
           let comb' := Selector_Combination.set_has_placeholder b
                          (Selector_Combination.set_has_reference r comb) in
           exists G',
             Vectorized.push G comb' = Returns G'
             /\ Vectorized.elements_ G' = Vectorized.elements_ G ++ [comb']
             /\ Selector_Group.has_reference G' = Selector_Group.has_reference G || r
             /\ Selector_Group.has_placeholder G'
                = Selector_Group.has_placeholder G || b).
Proof.
  intros p l c h t' comb E.
  destruct (Combination_new_members _ _ _ _ _ E) as [Hr [Hp _]].
  assert (Hpush : forall G : Selector_Group.t, Vectorized.push G comb = Undefined).
  { intros G.
    unfold Vectorized.push, Vectorized.adjust_after_pushing,
      Selector_Group.adjust_after_pushing, Selector_Group.adjust_after_pushing_body,
      seq, Selector_Combination.has_reference.
    rewrite Hr; reflexivity. }
  split; [exact Hpush | split].
  - intros G rest; rewrite push_all_cons, Hpush; reflexivity.
  - intros G r b comb'.
    rewrite (@Group_push G comb' r b) by reflexivity.
    eexists; repeat split; reflexivity.
Qed.

(** X16. The hook of [Selector_Group] assigns the two flags the class
    declares itself and never the ones it inherits from [Selector]: whatever
    combinations were pushed, when the pushes return the inherited part is as
    the constructor made it, with both of its flags false. *)
Theorem Group_inherited_flags_stay_false :
  forall (p : string) (l s : N) (cs : list Selector_Combination.t)
         (G : Selector_Group.t),
    Vectorized.push_all (Selector_Group.new p l s) cs = Returns G ->
    Selector_Group.base (Vectorized.members G) = Selector.new p l false false
    /\ Selector.has_reference_ (Selector_Group.base (Vectorized.members G)) = false
    /\ Selector.has_placeholder_ (Selector_Group.base (Vectorized.members G)) = false.
Proof.
  intros p l s cs G E.
  assert (Hbase : Selector_Group.base (Vectorized.members G)
                  = Selector_Group.base (Vectorized.members (Selector_Group.new p l s))).
  { revert E; generalize (Selector_Group.new p l s); revert G.
    induction cs as [| c cs IH]; intros G G0 E.
    - injection E as <-; reflexivity.
    - rewrite push_all_cons in E.
      apply bind_Returns in E; destruct E as [G1 [E1 E2]].
      rewrite (IH _ _ E2); exact (Group_push_base _ _ E1). }
  rewrite Hbase; repeat split; reflexivity.
Qed.

(* ------------------------------------------------------------------------- *)
(** * The further properties at concrete inputs *)

Lemma push_adds_one_at_the_end_witness :
  exists this',
    Vectorized.push (Block.new Example.file 1 0 false) Example.ruleset = Returns this'
    /\ Vectorized.length this' = 1
    /\ Vectorized.empty this' = false
    /\ Vectorized.index this' 0 = Returns Example.ruleset.
Proof.
  destruct (@push_adds_one_at_the_end _ _ _ Block_hook_total
              (Block.new Example.file 1 0 false) Example.ruleset)
    as [this' [E [Hl [He [Hi _]]]]].
  exists this'; repeat split; assumption.
Defined.

Lemma plus_eq_self_doubles_witness :
  exists A',
    Vectorized.plus_eq
      (Vectorized.mk [Example.declaration; Example.ruleset]
         (Statement.mk_Block Example.here false true false))
      Vectorized.Self = Returns A'
    /\ Vectorized.elements_ A'
       = [Example.declaration; Example.ruleset; Example.declaration; Example.ruleset]
    /\ Vectorized.length A' = 4.
Proof.
  exact (@plus_eq_self_doubles _ _ _ Block_hook_total
           (Vectorized.mk [Example.declaration; Example.ruleset]
              (Statement.mk_Block Example.here false true false))).
Defined.

Lemma plus_eq_empty_is_identity_witness :
  Vectorized.plus_eq (H := Selector_Group.adjust_after_pushing)
    (Vectorized.mk [Example.assigned_combination]
       (Selector_Group.mk (Selector.new Example.file 1 false false) true false))
    (Vectorized.Other (Selector_Group.new Example.file 2 0))
  = Returns (Vectorized.mk [Example.assigned_combination]
               (Selector_Group.mk (Selector.new Example.file 1 false false) true false)).
Proof.
  apply (@plus_eq_empty_is_identity _ _ Selector_Group.adjust_after_pushing).
  reflexivity.
Defined.

Lemma plus_eq_only_grows_witness :
  Vectorized.elements_
    (Vectorized.mk [Example.required_a; Example.optional_c; Example.rest_d]
       (Sass_Parameters.mk Example.here true true))
  = Vectorized.elements_
      (Vectorized.mk [Example.required_a]
         (Sass_Parameters.mk Example.here false false))
    ++ [Example.optional_c; Example.rest_d]
  /\ 3 = 1 + 2
  /\ (forall i, i < 1 ->
        Vectorized.index
          (Vectorized.mk [Example.required_a; Example.optional_c; Example.rest_d]
             (Sass_Parameters.mk Example.here true true)) i
        = Vectorized.index
            (Vectorized.mk [Example.required_a]
               (Sass_Parameters.mk Example.here false false)) i).
Proof.
  apply (@plus_eq_only_grows _ _ Sass_Parameters.adjust_after_pushing
           (Vectorized.mk [Example.required_a]
              (Sass_Parameters.mk Example.here false false))
           (Vectorized.mk [Example.required_a; Example.optional_c; Example.rest_d]
              (Sass_Parameters.mk Example.here true true))
           (Vectorized.Other
              (Vectorized.mk [Example.optional_c; Example.rest_d]
                 (Sass_Parameters.mk Example.here true true)))).
  reflexivity.
Defined.

Lemma assign_at_replaces_one_element_witness :
  exists this',
    Vectorized.assign_at
      (Vectorized.mk [Example.positional; Example.positional]
         (Sass_Arguments.mk Example.here false false)) 1 Example.named_x
    = Returns this'
    /\ Vectorized.members this' = Sass_Arguments.mk Example.here false false
    /\ Vectorized.length this' = 2
    /\ Vectorized.index this' 1 = Returns Example.named_x
    /\ Vectorized.index this' 0 = Returns Example.positional.
Proof.
  destruct (assign_at_replaces_one_element
              (Vectorized.mk [Example.positional; Example.positional]
                 (Sass_Arguments.mk Example.here false false)) 1 Example.named_x)
    as [Hin _].
  destruct Hin as [this' [E [Hm [Hl [Hi Hj]]]]]; [simpl; lia |].
  exists this'; split; [exact E | split; [exact Hm | split; [exact Hl | split]]].
  - exact Hi.
  - rewrite (Hj 0) by lia; reflexivity.
Defined.

Lemma Block_assign_at_leaves_has_hoistable_witness :
  exists B B',
    Vectorized.push_all (Block.new Example.file 1 0 true)
      [Example.declaration; Example.declaration] = Returns B
    /\ Vectorized.assign_at B 0 Example.ruleset = Returns B'
    /\ Vectorized.index B' 0 = Returns Example.ruleset
    /\ In Example.ruleset (Vectorized.elements_ B')
    /\ Block.has_hoistable B' = false.
Proof.
  apply (Block_assign_at_leaves_has_hoistable Example.file 1 0 true
           [Example.declaration; Example.declaration] (i := 0) Example.ruleset).
  - intros y [<- | [<- | []]]; reflexivity.
  - simpl; lia.
  - reflexivity.
Defined.

Lemma flags_do_not_record_order_witness :
  (exists ps1 ps2,
      Vectorized.push_all (Sass_Parameters.new Example.file 1)
        [Example.required_a; Example.optional_c] = Returns ps1
      /\ Vectorized.push_all (Sass_Parameters.new Example.file 1)
           [Example.optional_c; Example.required_a] = Returns ps2
      /\ Vectorized.members ps1 = Vectorized.members ps2)
  /\ (exists args1 args2,
      Vectorized.push_all (Sass_Arguments.new Example.file 1)
        [Example.positional; Example.named_x] = Returns args1
      /\ Vectorized.push_all (Sass_Arguments.new Example.file 1)
           [Example.named_x; Example.positional] = Returns args2
      /\ Vectorized.members args1 = Vectorized.members args2).
Proof.
  apply flags_do_not_record_order; apply perm_swap.
Defined.

Lemma Selector_Combination_new_with_readable_tail_witness :
  Selector_Combination.new Example.file 1 Selector_Combination.ANCESTOR_OF
    (Some (Simple_Selector_Sequence.new Example.file 1 0))
    (Some Example.assigned_combination)
  = Returns (Selector_Combination.mk (Selector.new Example.file 1 true false)
               Selector_Combination.ANCESTOR_OF
               (Some (Simple_Selector_Sequence.new Example.file 1 0))
               (Some Example.assigned_combination) indeterminate indeterminate).
Proof.
  apply (@Selector_Combination_new_with_readable_tail Example.file 1
           Selector_Combination.ANCESTOR_OF
           (Some (Simple_Selector_Sequence.new Example.file 1 0))
           (Some Example.assigned_combination) true false).
  split; reflexivity.
Defined.

Lemma Group_push_needs_assigned_flags_witness :
  Vectorized.push (Selector_Group.new Example.file 1 0)
    (Selector_Combination.mk (Selector.new Example.file 1 false false)
       Selector_Combination.PARENT_OF None None indeterminate indeterminate)
  = Undefined.
Proof.
  destruct (@Group_push_needs_assigned_flags Example.file 1
              Selector_Combination.PARENT_OF None None
              (Selector_Combination.mk (Selector.new Example.file 1 false false)
                 Selector_Combination.PARENT_OF None None indeterminate indeterminate)
              eq_refl) as [Hpush _].
  apply Hpush.
Defined.

Lemma Group_inherited_flags_stay_false_witness :
  Selector_Group.has_reference
    (Vectorized.mk [Example.assigned_combination]
       (Selector_Group.mk (Selector.new Example.file 1 false false) true false))
  = true
  /\ Selector.has_reference_
       (Selector_Group.base
          (Vectorized.members
             (Vectorized.mk [Example.assigned_combination]
                (Selector_Group.mk (Selector.new Example.file 1 false false)
                   true false)))) = false.
Proof.
  split; [reflexivity |].
  destruct (@Group_inherited_flags_stay_false Example.file 1 0
              [Example.assigned_combination]
              (Vectorized.mk [Example.assigned_combination]
                 (Selector_Group.mk (Selector.new Example.file 1 false false)
                    true false)) eq_refl) as [_ [Hr _]].
  exact Hr.
Defined.

(* ------------------------------------------------------------------------- *)
(** * The hook that does nothing, and sequences of constructed selectors *)

Lemma default_hook_push_all {T D : Type} (es : list T) :
  forall A : Vectorized.t T D,
    Vectorized.push_all (H := Vectorized.default_hook) A es
    = Returns (Vectorized.mk (Vectorized.elements_ A ++ es) (Vectorized.members A)).
Proof.
  induction es as [| e es IH]; intros A.
  - rewrite push_all_nil, app_nil_r; destruct A; reflexivity.
  - rewrite push_all_cons.
    unfold Vectorized.push at 1, Vectorized.adjust_after_pushing at 1,
      Vectorized.default_hook at 1.
    cbn [bind Vectorized.members Vectorized.elements_].
    rewrite IH; cbn [Vectorized.members Vectorized.elements_].
    rewrite <- app_assoc; reflexivity.
Qed.

(** X17. With the hook of [Vectorized] itself, which [List] keeps, pushing
    and extending always return and touch nothing but the elements: a list
    keeps its separator, its [is_arglist] and the string its [type()]
    returns, whatever is pushed onto it or whatever it is extended by, itself
    included. *)
Theorem List_pushes_leave_members :
  forall (A : Sass_List.t) (es : list Expression.t) (v : Vectorized.operand),
  exists A1 A2,
    Vectorized.push_all A es = Returns A1
    /\ Vectorized.plus_eq A v = Returns A2
    /\ Vectorized.elements_ A1 = Vectorized.elements_ A ++ es
    /\ Vectorized.elements_ A2
       = Vectorized.elements_ A ++ Vectorized.elements_ (Vectorized.deref v A)
    /\ Vectorized.members A1 = Vectorized.members A
    /\ Vectorized.members A2 = Vectorized.members A
    /\ Sass_List.type A1 = Sass_List.type A
    /\ Sass_List.type A2 = Sass_List.type A.
Proof.
  intros A es v.
  rewrite plus_eq_push_all.
  unfold Sass_List.adjust_after_pushing; rewrite !default_hook_push_all.
  eexists; eexists; repeat split; reflexivity.
Qed.

Lemma as_constructed_flags (sels : list Simple_Selector.t) :
  (forall x, In x sels -> Simple_Selector.as_constructed x = true) ->
  existsb Simple_Selector.has_reference sels
  = existsb Simple_Selector.is_Selector_Reference sels
  /\ existsb Simple_Selector.has_placeholder sels
     = existsb Simple_Selector.is_Selector_Placeholder sels.
Proof.
  induction sels as [| x sels IH]; intros Hall; simpl.
  - split; reflexivity.
  - destruct IH as [IH1 IH2]; [intros y Hy; apply Hall; right; exact Hy |].
    assert (Hx := Hall x (or_introl eq_refl)).
    unfold Simple_Selector.as_constructed in Hx.
    apply andb_true_iff in Hx; destruct Hx as [H1 H2].
    apply Bool.eqb_prop in H1; apply Bool.eqb_prop in H2.
    rewrite H1, H2, IH1, IH2; split; reflexivity.
Qed.

(** X18. Each constructor of a simple selector class returns a selector
    carrying the flags of its class.  A sequence built by pushing, onto a new
    sequence, simple selectors that carry the flags of their class has
    [has_reference] exactly when a [Selector_Reference] is among them and
    [has_placeholder] exactly when a [Selector_Placeholder] is among them;
    one wrapped in a [Negated_Selector] does not count. *)
Theorem Sequence_flags_tell_the_classes :
  (forall (q : string) (k : N) (n m v : string)
          (e : option Expression.t) (sel : option Simple_Selector.t),
      forallb Simple_Selector.as_constructed
        [Selector_Reference.new q k; Selector_Placeholder.new q k n;
         Type_Selector.new q k n; Selector_Qualifier.new q k n;
         Attribute_Selector.new q k n m v; Pseudo_Selector.new q k n e;
         Negated_Selector.new q k sel] = true)
  /\ (forall (p : string) (l s : N) (sels : list Simple_Selector.t),
      (forall x, In x sels -> Simple_Selector.as_constructed x = true) ->
      exists S,
        Vectorized.push_all (Simple_Selector_Sequence.new p l s) sels = Returns S
        /\ Vectorized.elements_ S = sels
        /\ Simple_Selector_Sequence.has_reference S
           = existsb Simple_Selector.is_Selector_Reference sels
        /\ Simple_Selector_Sequence.has_placeholder S
           = existsb Simple_Selector.is_Selector_Placeholder sels).
Proof.
  split.
  - intros; reflexivity.
  - intros p l s sels Hall.
    destruct (as_constructed_flags sels Hall) as [Hr Hp].
    rewrite Sequence_push_all_members; eexists; split; [reflexivity |].
    unfold Simple_Selector_Sequence.has_reference,
      Simple_Selector_Sequence.has_placeholder.
    cbn [Vectorized.elements_ Vectorized.members
           Selector.has_reference_ Selector.has_placeholder_].
    rewrite <- Hr, <- Hp; repeat split; reflexivity.
Qed.

Lemma Sequence_flags_tell_the_classes_witness :
  exists S,
    Vectorized.push_all (Simple_Selector_Sequence.new Example.file 1 0)
      [Type_Selector.new Example.file 1 "a"; Example.not_placeholder;
       Selector_Reference.new Example.file 1] = Returns S
    /\ Simple_Selector_Sequence.has_reference S = true
    /\ Simple_Selector_Sequence.has_placeholder S = false.
Proof.
  destruct Sequence_flags_tell_the_classes as [_ Hseq].
  destruct (Hseq Example.file 1%N 0%N
              [Type_Selector.new Example.file 1 "a"; Example.not_placeholder;
               Selector_Reference.new Example.file 1]) as [S [E [_ [Hr Hp]]]].
  - intros x [<- | [<- | [<- | []]]]; reflexivity.
  - exists S; split; [exact E | split; [exact Hr | exact Hp]].
Defined.
